(** * Netgear MR1100 monitor: the data-reconciliation engine of router-stats.js

    A shallow embedding of the parts of [router-stats.js] that turn a raw
    router snapshot into aggregate counters, bandwidth samples, time-series
    rows, interpolated gap rows and windowed usage figures.

    Conventions of the embedding.

    - A parsed JSON document is a [jsval].  Objects are finite maps from
      property names to values.  Numeric literals are integers; JavaScript
      stores them as doubles, which are exact for integers of magnitude
      below 2^53, the range this model is meant for.
    - Byte counters, timestamps and their differences are integers ([Z]).
      Quotients (speeds, bytes per interval) are exact rationals ([Q]); the
      rounding of IEEE-754 division is abstracted.  Every concrete value
      computed below is exactly representable as a double.
    - The SQLite file is a pair of tables held as lists in insertion (rowid)
      order.  [db] is always open: [main] calls [initDatabase] before any
      other function, so the [if (!db) return] guards never fire.
      Statements on the tables are taken to succeed: input/output errors
      and values the SQLite binding refuses are outside the model.
    - Terminal rendering ([console.log], histograms, bars) is not modelled
      and is taken not to raise; a poll cycle is modelled through its effect
      on the tables, on [bandwidthHistory] and on [previousStats].  The
      three property reads outside the rendering that can raise a TypeError
      are modelled.

    The later parts embed, each on its own, the debug monitor
    ([router-stats-debug.js]), the schema migration ([tools/migrate-db.js]),
    the session with the router ([httpRequest] to [fetchStats]), the grid of
    [createHistogram] and the password prompt. *)

From Stdlib Require Import ZArith QArith Qround Qminmax Lia Lqa.
From Stdlib Require Import Ascii String DecimalString.
From Stdlib Require DecimalPos.
From Stdlib Require Import Sorted.
From stdpp Require Import base strings list sorting gmap.

Local Open Scope Z_scope.

(** ** JavaScript values *)

Module JS.

#[warnings="-register-all"]
Inductive jsval : Type :=
  | JUndefined
  | JNull
  | JBool (b : bool)
  | JNum (z : Z)
  | JStr (s : string)
  | JArr (items : list jsval)
  | JObj (fields : gmap string jsval).

(** [v.k] for a value [v] that is neither [undefined] nor [null]: the own
    property of an object, [undefined] on a primitive (none of the property
    names read by the program is a prototype method).  Reading a property
    of [undefined] or [null] raises a TypeError in JavaScript; every use of
    [get] below is guarded as in the source, and the unguarded reads of
    [displayStats] are modelled by [object_coercible]. *)
Definition get (v : jsval) (k : string) : jsval :=
  match v with
  | JObj m => default JUndefined (m !! k)
  | _ => JUndefined
  end.

Definition object_coercible (v : jsval) : bool :=
  match v with
  | JUndefined | JNull => false
  | _ => true
  end.

(** ToBoolean. *)
Definition truthy (v : jsval) : bool :=
  match v with
  | JUndefined | JNull => false
  | JBool b => b
  | JNum z => negb (z =? 0)
  | JStr s => negb (String.eqb s "")
  | JArr _ => true
  | JObj _ => true
  end.

(** [a && b] and [a || b] return one of their operands. *)
Definition js_and (a b : jsval) : jsval := if truthy a then b else a.
Definition js_or (a b : jsval) : jsval := if truthy a then a else b.

(** [v === 'lit'] for a string literal. *)
Definition strict_eq_str (v : jsval) (lit : string) : bool :=
  match v with
  | JStr s => String.eqb s lit
  | _ => false
  end.

(** ToString, on the values of the model.  An array is the join of its
    elements with commas, [undefined] and [null] elements being empty. *)
Fixpoint toString (v : jsval) : string :=
  match v with
  | JUndefined => "undefined"
  | JNull => "null"
  | JBool true => "true"
  | JBool false => "false"
  | JNum z => NilZero.string_of_int (Z.to_int z)
  | JStr s => s
  | JArr items =>
      (fix join (l : list jsval) : string :=
         match l with
         | [] => ""
         | x :: rest =>
             let sx := match x with
                       | JUndefined | JNull => ""
                       | _ => toString x
                       end in
             match rest with
             | [] => sx
             | _ :: _ => String.append sx (String.append "," (join rest))
             end
         end) items
  | JObj _ => "[object Object]"
  end.

(** *** parseInt *)

Definition is_whitespace (c : ascii) : bool :=
  let n := Z.of_N (N_of_ascii c) in
  ((9 <=? n) && (n <=? 13)) || (n =? 32).

Fixpoint trim_start (s : string) : string :=
  match s with
  | String c rest => if is_whitespace c then trim_start rest else s
  | EmptyString => s
  end.

Definition digit_of (radix : Z) (c : ascii) : option Z :=
  let n := Z.of_N (N_of_ascii c) in
  let d :=
    if (48 <=? n) && (n <=? 57) then Some (n - 48)
    else if (97 <=? n) && (n <=? 122) then Some (n - 87)
    else if (65 <=? n) && (n <=? 90) then Some (n - 55)
    else None in
  match d with
  | Some v => if v <? radix then Some v else None
  | None => None
  end.

(** The value of the longest prefix of radix digits; [acc] is [None] until
    a digit has been read. *)
Fixpoint parse_digits (radix : Z) (s : string) (acc : option Z) : option Z :=
  match s with
  | String c rest =>
      match digit_of radix c with
      | Some d => parse_digits radix rest (Some (radix * default 0 acc + d))
      | None => acc
      end
  | EmptyString => acc
  end.

Definition strip_sign (s : string) : Z * string :=
  match s with
  | String "-"%char rest => (-1, rest)
  | String "+"%char rest => (1, rest)
  | _ => (1, s)
  end.

Definition strip_radix (s : string) : Z * string :=
  match s with
  | String "0"%char (String "x"%char rest) => (16, rest)
  | String "0"%char (String "X"%char rest) => (16, rest)
  | _ => (10, s)
  end.

(** [parseInt(v)] with no radix argument: white space is skipped (the
    ASCII white space; strings are byte strings here), then an optional
    sign, then an optional [0x], then the longest run of digits.  [None] is
    NaN; the result [-0] is identified with [0] (the program only uses
    [parseInt(v) || 0] and sums, which do not tell them apart). *)
Definition parseInt (v : jsval) : option Z :=
  let '(sign, s1) := strip_sign (trim_start (toString v)) in
  let '(radix, s2) := strip_radix s1 in
  match parse_digits radix s2 None with
  | Some n => Some (sign * n)
  | None => None
  end.

(** [n || 0] for a number [n]: NaN and zero are falsy. *)
Definition or_zero (n : option Z) : Z :=
  match n with
  | Some z => if z =? 0 then 0 else z
  | None => 0
  end.

(** [a + b] on numbers, NaN being absorbing. *)
Definition num_add (a b : option Z) : option Z :=
  match a, b with
  | Some x, Some y => Some (x + y)
  | _, _ => None
  end.

End JS.
Import JS.

(** ** Snapshot normalisation ([displayStats], lines 816-843 and 903-916) *)

Definition POLL_INTERVAL : Z := 5000.

(** The per-source counters and the aggregate of one snapshot, under the
    names of the local variables of [displayStats]. *)
Record Normalized : Type := mkNormalized {
  totalDownload : Z;
  totalUpload : Z;
  cellularDownload : Z;
  cellularUpload : Z;
  wifiOffloadDownload : Z;
  wifiOffloadUpload : Z;
  wifiOffloadActive : jsval;
  wifiOffloadSsid : jsval;
  wifiOffloadRssi : jsval;
  wifiOffloadBars : jsval;
  ethernetOffloadDownload : Z;
  ethernetOffloadUpload : Z;
  ethernetOffloadActive : jsval
}.

(** [data.wifi && data.wifi.offload] and [data.ethernet && data.ethernet.offload]. *)
Definition wifiOffload_of (data : jsval) : jsval :=
  js_and (get data "wifi") (get (get data "wifi") "offload").

Definition ethOffload_of (data : jsval) : jsval :=
  js_and (get data "ethernet") (get (get data "ethernet") "offload").

(** Lines 821-836: the aggregate over cellular, WiFi offload and Ethernet
    offload, as the pair (totalDownload, totalUpload).  The same statements
    are repeated on [previousStats] at lines 946-961. *)
Definition aggregateTotals (data : jsval) : Z * Z :=
  let wwan := get data "wwan" in
  let totalDownload := or_zero (parseInt (get wwan "dataTransferredRx")) in
  let totalUpload := or_zero (parseInt (get wwan "dataTransferredTx")) in
  let wifiOffload := wifiOffload_of data in
  let '(totalDownload, totalUpload) :=
    if truthy (js_and wifiOffload (get wifiOffload "dataTransferred")) then
      (totalDownload + or_zero (parseInt (get (get wifiOffload "dataTransferred") "tx")),
       totalUpload + or_zero (parseInt (get (get wifiOffload "dataTransferred") "rx")))
    else (totalDownload, totalUpload) in
  let ethOffload := ethOffload_of data in
  if truthy ethOffload then
    (totalDownload + or_zero (parseInt (get ethOffload "tx")),
     totalUpload + or_zero (parseInt (get ethOffload "rx")))
  else (totalDownload, totalUpload).

(** Lines 841-843: [totalLifetimeBytes]; [None] is NaN. *)
Definition totalLifetimeBytes_of (data : jsval) : option Z :=
  let dataUsage := get (get (get data "wwan") "dataUsage") "generic" in
  let lifetimeData := parseInt (js_or (get dataUsage "dataTransferred") (JNum 0)) in
  let roamingData := parseInt (js_or (get dataUsage "dataTransferredRoaming") (JNum 0)) in
  num_add lifetimeData roamingData.

(** Lines 821-836 together with the per-connection breakdown of lines
    904-916. *)
Definition normalize (data : jsval) : Normalized :=
  let wwan := get data "wwan" in
  let wifiOffload := wifiOffload_of data in
  let ethOffload := ethOffload_of data in
  let hasWifiCounters := truthy (js_and wifiOffload (get wifiOffload "dataTransferred")) in
  let wifiActive :=
    js_and wifiOffload
      (js_and (get wifiOffload "enabled")
         (if strict_eq_str (get wifiOffload "status") "On"
          then get wifiOffload "connectionSsid"
          else JBool false)) in
  let ethActive :=
    js_and ethOffload
      (js_and (get ethOffload "enabled")
         (js_and (get ethOffload "on")
            (js_and (get ethOffload "ipv4Addr")
               (JBool (negb (strict_eq_str (get ethOffload "ipv4Addr") "0.0.0.0")))))) in
  {| totalDownload := fst (aggregateTotals data);
     totalUpload := snd (aggregateTotals data);
     cellularDownload := or_zero (parseInt (get wwan "dataTransferredRx"));
     cellularUpload := or_zero (parseInt (get wwan "dataTransferredTx"));
     wifiOffloadDownload :=
       if hasWifiCounters
       then or_zero (parseInt (get (get wifiOffload "dataTransferred") "tx")) else 0;
     wifiOffloadUpload :=
       if hasWifiCounters
       then or_zero (parseInt (get (get wifiOffload "dataTransferred") "rx")) else 0;
     wifiOffloadActive := wifiActive;
     wifiOffloadSsid :=
       if truthy wifiActive then get wifiOffload "connectionSsid" else JNull;
     wifiOffloadRssi :=
       if truthy wifiActive then js_or (get wifiOffload "rssi") JNull else JNull;
     wifiOffloadBars :=
       if truthy wifiActive then js_or (get wifiOffload "bars") JNull else JNull;
     ethernetOffloadDownload :=
       if truthy ethOffload then or_zero (parseInt (get ethOffload "tx")) else 0;
     ethernetOffloadUpload :=
       if truthy ethOffload then or_zero (parseInt (get ethOffload "rx")) else 0;
     ethernetOffloadActive := ethActive |}.

(** ** The SQLite tables *)

(** A row of [timeseries_data].  Columns that the program computes with are
    integers ([option] for a nullable column); columns that are only passed
    through to the file hold the bound JavaScript value ([JNull] is NULL). *)
Record TimeSeriesRecord : Type := mkTimeSeriesRecord {
  timestamp : Z;
  total_rx_bytes : Z;
  total_tx_bytes : Z;
  session_duration : jsval;
  lifetime_bytes : option Z;
  signal_rsrp : jsval;
  signal_rsrq : jsval;
  signal_sinr : jsval;
  cellular_download : option Z;
  cellular_upload : option Z;
  wifi_offload_download : option Z;
  wifi_offload_upload : option Z;
  wifi_offload_active : option Z;
  wifi_offload_ssid : jsval;
  wifi_offload_rssi : jsval;
  wifi_offload_bars : jsval;
  ethernet_offload_download : option Z;
  ethernet_offload_upload : option Z;
  ethernet_offload_active : option Z
}.

(** A row of the legacy table [bandwidth_history]. *)
Record BandwidthRow : Type := mkBandwidthRow {
  bw_timestamp : Z;
  download_speed : Q;
  upload_speed : Q
}.

Record Database : Type := mkDatabase {
  bandwidth_history : list BandwidthRow;
  timeseries_data : list TimeSeriesRecord
}.

Definition emptyDatabase : Database :=
  {| bandwidth_history := []; timeseries_data := [] |}.

(** [ORDER BY timestamp DESC]: a stable insertion sort, rows of equal
    timestamp staying in rowid order (SQL leaves their order open). *)
Fixpoint insert_desc {A : Type} (key : A -> Z) (x : A) (l : list A) : list A :=
  match l with
  | [] => [x]
  | y :: l' => if key x <? key y then y :: insert_desc key x l' else x :: l
  end.

Fixpoint order_by_desc {A : Type} (key : A -> Z) (l : list A) : list A :=
  match l with
  | [] => []
  | x :: l' => insert_desc key x (order_by_desc key l')
  end.

(** SQL [MIN] and [MAX] over the selected values: NULL on no row. *)
Definition sql_min (l : list Z) : option Z :=
  match l with
  | [] => None
  | x :: l' => Some (foldl Z.min x l')
  end.

Definition sql_max (l : list Z) : option Z :=
  match l with
  | [] => None
  | x :: l' => Some (foldl Z.max x l')
  end.

(** [c ? 1 : 0]. *)
Definition flag (c : jsval) : option Z := Some (if truthy c then 1 else 0).

(** [saveBandwidthData]; [now] is the value of its [Date.now()]. *)
Definition saveBandwidthData (now : Z) (downloadSpeed uploadSpeed : Q)
    (db : Database) : Database :=
  {| bandwidth_history :=
       bandwidth_history db ++
       [{| bw_timestamp := now; download_speed := downloadSpeed;
           upload_speed := uploadSpeed |}];
     timeseries_data := timeseries_data db |}.

(** [loadBandwidthHistory]: the (download, upload) lists, oldest first. *)
Definition loadBandwidthHistory (maxSamples : nat) (db : Database)
    : list Q * list Q :=
  let rows := take maxSamples (order_by_desc bw_timestamp (bandwidth_history db)) in
  let rows := reverse rows in
  (map download_speed rows, map upload_speed rows).

(** [saveTimeseriesData], with the parameter names of the source.
    [lifetimeBytes] is [None] when the number is NaN, which SQLite stores
    as NULL. *)
Definition saveTimeseriesData (timestamp totalRx totalTx : Z)
    (sessionDuration : jsval) (lifetimeBytes : option Z)
    (signalRsrp signalRsrq signalSinr : jsval)
    (cellularDownload cellularUpload wifiOffloadDownload wifiOffloadUpload : Z)
    (wifiOffloadActive wifiOffloadSsid wifiOffloadRssi wifiOffloadBars : jsval)
    (ethernetOffloadDownload ethernetOffloadUpload : Z)
    (ethernetOffloadActive : jsval) (db : Database) : Database :=
  {| bandwidth_history := bandwidth_history db;
     timeseries_data :=
       timeseries_data db ++
       [{| timestamp := timestamp;
           total_rx_bytes := totalRx;
           total_tx_bytes := totalTx;
           session_duration := sessionDuration;
           lifetime_bytes := lifetimeBytes;
           signal_rsrp := signalRsrp;
           signal_rsrq := signalRsrq;
           signal_sinr := signalSinr;
           cellular_download := Some cellularDownload;
           cellular_upload := Some cellularUpload;
           wifi_offload_download := Some wifiOffloadDownload;
           wifi_offload_upload := Some wifiOffloadUpload;
           wifi_offload_active := flag wifiOffloadActive;
           wifi_offload_ssid := wifiOffloadSsid;
           wifi_offload_rssi := wifiOffloadRssi;
           wifi_offload_bars := wifiOffloadBars;
           ethernet_offload_download := Some ethernetOffloadDownload;
           ethernet_offload_upload := Some ethernetOffloadUpload;
           ethernet_offload_active := flag ethernetOffloadActive |}] |}.

(** ** Gap detection and interpolation ([handleDataGap]) *)

(** The row inserted by [insertStmt.run(ts, 0, 0, 0, lifetime, null, null,
    null)]: the eleven columns the statement does not name are NULL. *)
Definition interpolatedRecord (interpolatedTimestamp interpolatedLifetime : Z)
    : TimeSeriesRecord :=
  {| timestamp := interpolatedTimestamp;
     total_rx_bytes := 0;
     total_tx_bytes := 0;
     session_duration := JNum 0;
     lifetime_bytes := Some interpolatedLifetime;
     signal_rsrp := JNull;
     signal_rsrq := JNull;
     signal_sinr := JNull;
     cellular_download := None;
     cellular_upload := None;
     wifi_offload_download := None;
     wifi_offload_upload := None;
     wifi_offload_active := None;
     wifi_offload_ssid := JNull;
     wifi_offload_rssi := JNull;
     wifi_offload_bars := JNull;
     ethernet_offload_download := None;
     ethernet_offload_upload := None;
     ethernet_offload_active := None |}.

(** The query of [handleDataGap]: timestamp and lifetime of the latest row
    whose [lifetime_bytes] is not NULL. *)
Definition lastEntry (db : Database) : option (Z * Z) :=
  let rows :=
    omap (fun r => match lifetime_bytes r with
                   | Some l => Some (timestamp r, l)
                   | None => None
                   end) (timeseries_data db) in
  head (order_by_desc fst rows).

(** The rows of the loop [for (let i = 1; i < numIntervals; i++)]. *)
Definition interpolatedRows (lastTimestamp lastLifetime : Z)
    (bytesPerInterval : Q) (numIntervals : Z) : list TimeSeriesRecord :=
  map (fun k : nat =>
         let i := Z.of_nat k in
         let interpolatedTimestamp := lastTimestamp + i * POLL_INTERVAL in
         let interpolatedLifetime :=
           Qfloor (inject_Z lastLifetime + bytesPerInterval * inject_Z i) in
         interpolatedRecord interpolatedTimestamp interpolatedLifetime)
      (seq 1 (Z.to_nat numIntervals - 1)).

(** [handleDataGap(currentTimestamp, lifetimeBytes)]: the returned flag and
    the table after the inserts. *)
Definition handleDataGap (currentTimestamp lifetimeBytes : Z) (db : Database)
    : bool * Database :=
  match lastEntry db with
  | None => (false, db)
  | Some (last_timestamp, last_lifetime) =>
      let timeSinceLastPoll := currentTimestamp - last_timestamp in
      let gapThreshold := POLL_INTERVAL * 3 in
      if (gapThreshold <? timeSinceLastPoll) && (last_lifetime <? lifetimeBytes) then
        let lifetimeDelta := lifetimeBytes - last_lifetime in
        let numIntervals :=
          Qfloor (inject_Z timeSinceLastPoll / inject_Z POLL_INTERVAL) in
        if (0 <? numIntervals)
           && (numIntervals <? 24 * 60 * 60 * 1000 / POLL_INTERVAL)
           && (0 <? lifetimeDelta) then
          let bytesPerInterval := (inject_Z lifetimeDelta / inject_Z numIntervals)%Q in
          (true,
           {| bandwidth_history := bandwidth_history db;
              timeseries_data :=
                timeseries_data db ++
                interpolatedRows last_timestamp last_lifetime bytesPerInterval
                  numIntervals |})
        else (false, db)
      else (false, db)
  end.

(** ** Usage over time windows ([calculateUsageOverTime]) *)

(** The query of one period: MIN and MAX of [total_rx_bytes +
    total_tx_bytes] over the rows with [timestamp >= cutoffTime]. *)
Definition rowsSince (cutoffTime : Z) (db : Database) : list TimeSeriesRecord :=
  filter (fun r => cutoffTime <= timestamp r) (timeseries_data db).

Definition aggregateBytes (r : TimeSeriesRecord) : Z :=
  total_rx_bytes r + total_tx_bytes r.

Definition start_bytes (cutoffTime : Z) (db : Database) : option Z :=
  sql_min (map aggregateBytes (rowsSince cutoffTime db)).

Definition end_bytes (cutoffTime : Z) (db : Database) : option Z :=
  sql_max (map aggregateBytes (rowsSince cutoffTime db)).

(** The body of the loop over the periods: [None] is [null]. *)
Definition usageSince (cutoffTime : Z) (db : Database) : option Z :=
  match start_bytes cutoffTime db, end_bytes cutoffTime db with
  | Some s, Some e => Some (e - s)
  | _, _ => None
  end.

(** The windows, as label and length in milliseconds. *)
Definition periods : list (string * Z) :=
  [("5m", 5 * 60 * 1000); ("15m", 15 * 60 * 1000); ("30m", 30 * 60 * 1000);
   ("45m", 45 * 60 * 1000); ("1h", 60 * 60 * 1000); ("6h", 6 * 60 * 60 * 1000);
   ("12h", 12 * 60 * 60 * 1000); ("24h", 24 * 60 * 60 * 1000)].

(** [calculateUsageOverTime()], [now] being the value of [Date.now()]: the
    entries of [result] in insertion order. *)
Definition calculateUsageOverTime (now : Z) (db : Database)
    : list (string * option Z) :=
  map (fun p : string * Z => (fst p, usageSince (now - snd p) db)) periods.

(** ** Speeds *)

(** [calculateBandwidth(currentBytes, previousBytes, timeInterval)];
    [!previousBytes] holds of the number 0. *)
Definition calculateBandwidth (currentBytes previousBytes timeInterval : Z) : Q :=
  if previousBytes =? 0 then 0%Q
  else
    let bytesDiff := currentBytes - previousBytes in
    let bytesPerSecond :=
      (inject_Z bytesDiff / inject_Z timeInterval * 1000)%Q in
    Qmax 0 bytesPerSecond.

(** The result object of [calculateSpeedsFromTimeseries]. *)
Record SpeedSeries : Type := mkSpeedSeries {
  series_download : list Q;
  series_upload : list Q;
  series_timestamps : list Z
}.

Definition emptySeries : SpeedSeries :=
  {| series_download := []; series_upload := []; series_timestamps := [] |}.

(** [a > 0] on rationals. *)
Definition Qpositive (a : Q) : bool := negb (Qle_bool a 0).

(** The loop [for (let i = 1; i < rows.length; i++)] over the rows, oldest
    first. *)
Fixpoint speedsBetween (rows : list TimeSeriesRecord) : SpeedSeries :=
  match rows with
  | previous :: ((current :: _) as rest) =>
      let later := speedsBetween rest in
      let timeDiffMs := timestamp current - timestamp previous in
      let timeDiffSec := (inject_Z timeDiffMs / 1000)%Q in
      let rxDiff := total_rx_bytes current - total_rx_bytes previous in
      let txDiff := total_tx_bytes current - total_tx_bytes previous in
      if (0 <=? rxDiff) && (0 <=? txDiff) && Qpositive timeDiffSec then
        let downloadSpeed := (inject_Z rxDiff / timeDiffSec)%Q in
        let uploadSpeed := (inject_Z txDiff / timeDiffSec)%Q in
        {| series_download := downloadSpeed :: series_download later;
           series_upload := uploadSpeed :: series_upload later;
           series_timestamps := timestamp current :: series_timestamps later |}
      else later
  | _ => emptySeries
  end.

(** [calculateSpeedsFromTimeseries(limit)]. *)
Definition calculateSpeedsFromTimeseries (limit : nat) (db : Database)
    : SpeedSeries :=
  let rows := take (limit + 1) (order_by_desc timestamp (timeseries_data db)) in
  if (length rows <? 2)%nat then emptySeries
  else speedsBetween (reverse rows).

(** [cleanOldData(daysToKeep)]. *)
Definition cleanOldData (daysToKeep now : Z) (db : Database) : Database :=
  let cutoffTime := now - daysToKeep * 24 * 60 * 60 * 1000 in
  {| bandwidth_history :=
       filter (fun r => cutoffTime <= bw_timestamp r) (bandwidth_history db);
     timeseries_data :=
       filter (fun r => cutoffTime <= timestamp r) (timeseries_data db) |}.

(** ** The poll cycle *)

(** The module-level object [bandwidthHistory]. *)
Record BandwidthHistory : Type := mkBandwidthHistory {
  download : list Q;
  upload : list Q;
  maxSamples : nat
}.

(** The module-level variables a poll cycle reads and writes. *)
Record PollerState : Type := mkPollerState {
  previousStats : jsval;
  bandwidthHistory : BandwidthHistory;
  db : Database
}.

Definition with_db (st : PollerState) (d : Database) : PollerState :=
  {| previousStats := previousStats st;
     bandwidthHistory := bandwidthHistory st;
     db := d |}.

Definition with_previousStats (st : PollerState) (stats : jsval) : PollerState :=
  {| previousStats := stats;
     bandwidthHistory := bandwidthHistory st;
     db := db st |}.

(** Lines 970-975: push both speeds, then drop the oldest pair when the
    download list has grown past [maxSamples]. *)
Definition pushSample (downloadSpeed uploadSpeed : Q) (h : BandwidthHistory)
    : BandwidthHistory :=
  let d := download h ++ [downloadSpeed] in
  let u := upload h ++ [uploadSpeed] in
  if (maxSamples h <? length d)%nat then
    {| download := drop 1 d; upload := drop 1 u; maxSamples := maxSamples h |}
  else
    {| download := d; upload := u; maxSamples := maxSamples h |}.

(** [data.router.clientList.filter(c => c.IP)] at line 1011 runs only on an
    array none of whose elements is [undefined] or [null]. *)
Definition clientListReadable (data : jsval) : bool :=
  match get (get data "router") "clientList" with
  | JArr clients => forallb object_coercible clients
  | _ => false
  end.

(** How a call of [displayStats] ends: it returns, or a TypeError leaves it
    at one of the property reads that the source does not guard
    ([signal.rsrp] at line 924, [previousStats.wwan.dataTransferredRx] at
    line 946, [data.router.clientList.filter] at line 1011).  The read at
    line 924 is reached with a missing [signalStrength] when the network
    panel is hidden or shows an offload; otherwise the panel reads
    [signal.bars] first. *)
Inductive Outcome : Type :=
  | Returned (st : PollerState)
  | Threw (st : PollerState).

Definition stateOf (o : Outcome) : PollerState :=
  match o with
  | Returned st => st
  | Threw st => st
  end.

(** [displayStats(data)], without the rendering.  [timestamp] is the value
    of [Date.now()] at line 898 and [savedAt] the one taken inside
    [saveBandwidthData]. *)
Definition displayStats (data : jsval) (timestamp savedAt : Z) (st : PollerState)
    : Outcome :=
  if negb (truthy data) || negb (truthy (get data "wwan"))
     || negb (truthy (get data "general")) || negb (truthy (get data "power"))
  then Returned st
  else
    let wwan := get data "wwan" in
    let signal := get wwan "signalStrength" in
    if negb (truthy (get wwan "dataUsage"))
       || negb (truthy (get (get wwan "dataUsage") "generic"))
    then Returned st
    else
      let n := normalize data in
      let totalLifetimeBytes := totalLifetimeBytes_of data in
      (* handleDataGap(timestamp, totalLifetimeBytes): NaN compares false *)
      let db1 :=
        match totalLifetimeBytes with
        | Some l => snd (handleDataGap timestamp l (db st))
        | None => db st
        end in
      if negb (object_coercible signal) then Threw (with_db st db1)
      else
        let db2 :=
          saveTimeseriesData timestamp (totalUpload n) (totalDownload n)
            (get wwan "sessDuration") totalLifetimeBytes
            (get signal "rsrp") (get signal "rsrq") (get signal "sinr")
            (cellularDownload n) (cellularUpload n)
            (wifiOffloadDownload n) (wifiOffloadUpload n)
            (wifiOffloadActive n) (wifiOffloadSsid n)
            (wifiOffloadRssi n) (wifiOffloadBars n)
            (ethernetOffloadDownload n) (ethernetOffloadUpload n)
            (ethernetOffloadActive n) db1 in
        if truthy (previousStats st) then
          if negb (object_coercible (get (previousStats st) "wwan"))
          then Threw (with_db st db2)
          else
            let timeDiff := POLL_INTERVAL in
            let '(prevDownload, prevUpload) := aggregateTotals (previousStats st) in
            let downloadSpeed := calculateBandwidth (totalDownload n) prevDownload timeDiff in
            let uploadSpeed := calculateBandwidth (totalUpload n) prevUpload timeDiff in
            let st' :=
              {| previousStats := previousStats st;
                 bandwidthHistory :=
                   pushSample downloadSpeed uploadSpeed (bandwidthHistory st);
                 db := saveBandwidthData savedAt downloadSpeed uploadSpeed db2 |} in
            if clientListReadable data then Returned st' else Threw st'
        else
          if clientListReadable data then Returned (with_db st db2)
          else Threw (with_db st db2).

(** The closure [refresh] of [main], applied to the result [stats] of
    [fetchStats] ([JNull] when the fetch failed): [previousStats] is
    assigned only when [displayStats] returns.  When it raises, the promise
    of [refresh] is rejected; whether Node then ends the process depends on
    its version, and the model lets the run go on from the state reached. *)
Definition refresh (stats : jsval) (timestamp savedAt : Z) (st : PollerState)
    : PollerState :=
  if truthy stats then
    match displayStats stats timestamp savedAt st with
    | Returned st' => with_previousStats st' stats
    | Threw st' => st'
    end
  else st.

(** The state in which [main] starts polling: the history is seeded from
    the time series, else from the legacy table; then [cleanOldData(7)]. *)
Definition startup (now : Z) (d : Database) : PollerState :=
  let timeseriesHistory := calculateSpeedsFromTimeseries 66 d in
  let '(dl, ul) :=
    if (0 <? length (series_download timeseriesHistory))%nat then
      (series_download timeseriesHistory, series_upload timeseriesHistory)
    else loadBandwidthHistory 66 d in
  {| previousStats := JNull;
     bandwidthHistory := {| download := dl; upload := ul; maxSamples := 66 |};
     db := cleanOldData 7 now d |}.

(** One event of the polling loop: what [fetchStats] returned and the two
    clock readings of the cycle. *)
Record Poll : Type := mkPoll {
  poll_stats : jsval;
  poll_timestamp : Z;
  poll_savedAt : Z
}.

Definition runPolls (polls : list Poll) (st : PollerState) : PollerState :=
  foldl (fun s p => refresh (poll_stats p) (poll_timestamp p) (poll_savedAt p) s)
        st polls.

(** Snapshot builders for the examples. *)
Definition obj (fields : list (string * jsval)) : jsval :=
  JObj (list_to_map fields).

(** A snapshot that passes the validity checks of [displayStats], with the
    given cellular counters, lifetime usage and optional offload objects. *)
Definition snapshot (rx tx lifetime : jsval) (wifi ethernet : jsval) : jsval :=
  obj [("general", obj [("model", JStr "MR1100")]);
       ("power", obj [("PMState", JStr "Online")]);
       ("wwan",
        obj [("dataTransferredRx", rx);
             ("dataTransferredTx", tx);
             ("sessDuration", JNum 60);
             ("signalStrength",
              obj [("rsrp", JNum (-95)); ("rsrq", JNum (-10));
                   ("sinr", JNum 12); ("bars", JNum 4)]);
             ("dataUsage",
              obj [("generic",
                    obj [("dataTransferred", lifetime);
                         ("dataTransferredRoaming", JStr "0")])])]);
       ("wwanadv", obj [("curBand", JStr "LTE B3")]);
       ("router", obj [("clientList", JArr [])]);
       ("wifi", wifi);
       ("ethernet", ethernet)].

(** * Auxiliary definitions for the statements *)


(** The value of a digit sequence read from the left, after [a]. *)
Fixpoint uint_value (d : Decimal.uint) (a : Z) : Z :=
  match d with
  | Decimal.Nil => a
  | Decimal.D0 l => uint_value l (10 * a + 0)
  | Decimal.D1 l => uint_value l (10 * a + 1)
  | Decimal.D2 l => uint_value l (10 * a + 2)
  | Decimal.D3 l => uint_value l (10 * a + 3)
  | Decimal.D4 l => uint_value l (10 * a + 4)
  | Decimal.D5 l => uint_value l (10 * a + 5)
  | Decimal.D6 l => uint_value l (10 * a + 6)
  | Decimal.D7 l => uint_value l (10 * a + 7)
  | Decimal.D8 l => uint_value l (10 * a + 8)
  | Decimal.D9 l => uint_value l (10 * a + 9)
  end.

(** Offload objects that carry only their counters. *)
Definition wifiCounters (tx rx : jsval) : jsval :=
  obj [("offload", obj [("dataTransferred", obj [("tx", tx); ("rx", rx)])])].

Definition ethernetCounters (tx rx : jsval) : jsval :=
  obj [("offload", obj [("tx", tx); ("rx", rx)])].

(** The rows a step added at the end of [timeseries_data]. *)
Definition insertedRows (before after : Database) : list TimeSeriesRecord :=
  drop (length (timeseries_data before)) (timeseries_data after).

(** What an interpolated row records besides its timestamp and lifetime:
    zero session counters, zero session duration and no signal reading. *)
Definition zeroSession (r : TimeSeriesRecord) : Prop :=
  total_rx_bytes r = 0 /\ total_tx_bytes r = 0 /\
  session_duration r = JNum 0 /\
  signal_rsrp r = JNull /\ signal_rsrq r = JNull /\ signal_sinr r = JNull.

(** The lifetime values of a run of rows, NULLs skipped. *)
Definition lifetimes (rows : list TimeSeriesRecord) : list Z :=
  omap lifetime_bytes rows.

(** Differences of consecutive elements, their sum, and strict growth. *)
Fixpoint deltas (l : list Z) : list Z :=
  match l with
  | a :: ((b :: _) as rest) => (b - a) :: deltas rest
  | _ => []
  end.

Definition sumZ (l : list Z) : Z := foldr Z.add 0 l.

Fixpoint increasing (l : list Z) : Prop :=
  match l with
  | a :: ((b :: _) as rest) => a < b /\ increasing rest
  | _ => True
  end.



(** The guards under which [displayStats] reaches the speed computation of
    lines 941-975 and returns. *)
Definition cycleCompletes (data : jsval) (st : PollerState) : bool :=
  truthy data && truthy (get data "wwan")
  && truthy (get data "general") && truthy (get data "power")
  && truthy (get (get data "wwan") "dataUsage")
  && truthy (get (get (get data "wwan") "dataUsage") "generic")
  && object_coercible (get (get data "wwan") "signalStrength")
  && truthy (previousStats st)
  && object_coercible (get (previousStats st) "wwan")
  && clientListReadable data.

(** The two speeds of lines 963-964, computed from the current snapshot
    and the previous one. *)
Definition liveDownloadSpeed (data previous : jsval) : Q :=
  calculateBandwidth (fst (aggregateTotals data)) (fst (aggregateTotals previous))
    POLL_INTERVAL.

Definition liveUploadSpeed (data previous : jsval) : Q :=
  calculateBandwidth (snd (aggregateTotals data)) (snd (aggregateTotals previous))
    POLL_INTERVAL.


(** *** Concrete runs used in the examples *)

(** Two polls five seconds apart, cellular only: download counter
    1000 -> 1500, upload counter 200 -> 300. *)
Definition firstPoll : Poll :=
  {| poll_stats := snapshot (JStr "1000") (JStr "200") (JStr "700000") JUndefined JUndefined;
     poll_timestamp := 1700000000000;
     poll_savedAt := 1700000000001 |}.

Definition secondPoll : Poll :=
  {| poll_stats := snapshot (JStr "1500") (JStr "300") (JStr "700600") JUndefined JUndefined;
     poll_timestamp := 1700000005000;
     poll_savedAt := 1700000005001 |}.

Definition afterTwoPolls : PollerState :=
  runPolls [firstPoll; secondPoll] (startup 1700000000000 emptyDatabase).

(** The snapshot of the convention example of the specification. *)
Definition conventionExample : jsval :=
  snapshot (JStr "100") (JStr "50") (JStr "0")
    (wifiCounters (JStr "30") (JStr "10")) JUndefined.

(** A row as [saveTimeseriesData] writes it for a cellular-only snapshot
    with the given timestamp, stored totals and lifetime usage. *)
Definition cellularRow (timestamp totalRx totalTx lifetimeBytes : Z)
    : TimeSeriesRecord :=
  {| timestamp := timestamp;
     total_rx_bytes := totalRx;
     total_tx_bytes := totalTx;
     session_duration := JNum 60;
     lifetime_bytes := Some lifetimeBytes;
     signal_rsrp := JNum (-95);
     signal_rsrq := JNum (-10);
     signal_sinr := JNum 12;
     cellular_download := Some totalTx;
     cellular_upload := Some totalRx;
     wifi_offload_download := Some 0;
     wifi_offload_upload := Some 0;
     wifi_offload_active := Some 0;
     wifi_offload_ssid := JNull;
     wifi_offload_rssi := JNull;
     wifi_offload_bars := JNull;
     ethernet_offload_download := Some 0;
     ethernet_offload_upload := Some 0;
     ethernet_offload_active := Some 0 |}.

(** The table of the interpolation example: the last real row has lifetime
    1000 at time 0. *)
Definition gapDatabase : Database :=
  {| bandwidth_history := [];
     timeseries_data := [cellularRow 0 200 1000 1000] |}.

(** A table with a single row, inside every window at time 2000. *)
Definition oneRowDatabase : Database :=
  {| bandwidth_history := [];
     timeseries_data := [cellularRow 1000 200 1000 5000] |}.

(** A snapshot taken after the router lost its counters: the download
    counter is back at 500, below the 1000 of [firstPoll]. *)
Definition resetSnapshot : jsval :=
  snapshot (JStr "500") (JStr "300") (JStr "700600") JUndefined JUndefined.

Definition beforeReset : PollerState :=
  runPolls [firstPoll] (startup 1700000000000 emptyDatabase).



(** A run with a gap of ten poll intervals: lifetime usage 1000 at the
    first poll, 2000 at the second. *)
Definition gapRun (rx1 rx2 : string) : PollerState :=
  runPolls
    [{| poll_stats := snapshot (JStr rx1) (JStr "0") (JStr "1000") JUndefined JUndefined;
        poll_timestamp := 1700000000000;
        poll_savedAt := 1700000000001 |};
     {| poll_stats := snapshot (JStr rx2) (JStr "0") (JStr "2000") JUndefined JUndefined;
        poll_timestamp := 1700000050000;
        poll_savedAt := 1700000050001 |}]
    (startup 1700000000000 emptyDatabase).

(** * Auxiliary definitions for the further properties *)




(** Line 847: [isOffloadActive], the condition of the warning in the
    header of the bandwidth panel. *)
Definition isOffloadActive (data : jsval) : jsval :=
  let wifiOffload := wifiOffload_of data in
  let ethOffload := ethOffload_of data in
  js_or
    (js_and wifiOffload
       (js_and (get wifiOffload "enabled")
          (if strict_eq_str (get wifiOffload "status") "On"
           then get wifiOffload "connectionSsid"
           else JBool false)))
    (js_and ethOffload
       (js_and (get ethOffload "enabled")
          (js_and (get ethOffload "on")
             (js_and (get ethOffload "ipv4Addr")
                (JBool (negb (strict_eq_str (get ethOffload "ipv4Addr") "0.0.0.0"))))))).

(** * The debug monitor ([router-stats-debug.js]) *)

Module Debug.

(** [displayDebugInfo] reads [data.wwan.connection], [data.wwanadv.curBand]
    and [data.wwan.signalStrength.bars] without a guard (lines 112-116): it
    gets to its totals only on a snapshot where these reads do not raise. *)
Definition reachesTotals (data : jsval) : bool :=
  object_coercible data && object_coercible (get data "wwan")
  && object_coercible (get data "wwanadv")
  && object_coercible (get (get data "wwan") "signalStrength").

(** [displayDebugInfo], lines 173-196: the aggregated totals as the pair
    (totalDownload, totalUpload). *)
Definition totals (data : jsval) : Z * Z :=
  let totalDownload := or_zero (parseInt (get (get data "wwan") "dataTransferredRx")) in
  let totalUpload := or_zero (parseInt (get (get data "wwan") "dataTransferredTx")) in
  let wifiOffload := js_and (get data "wifi") (get (get data "wifi") "offload") in
  let '(totalDownload, totalUpload) :=
    if truthy (js_and wifiOffload (get wifiOffload "dataTransferred")) then
      let wifiDL := or_zero (parseInt (get (get wifiOffload "dataTransferred") "tx")) in
      let wifiUL := or_zero (parseInt (get (get wifiOffload "dataTransferred") "rx")) in
      (totalDownload + wifiDL, totalUpload + wifiUL)
    else (totalDownload, totalUpload) in
  let ethOffload := js_and (get data "ethernet") (get (get data "ethernet") "offload") in
  if truthy ethOffload then
    let ethDL := or_zero (parseInt (get ethOffload "tx")) in
    let ethUL := or_zero (parseInt (get ethOffload "rx")) in
    (totalDownload + ethDL, totalUpload + ethUL)
  else (totalDownload, totalUpload).

(** Lines 178-201: the variables [wifiOffloadActive] and [ethOffloadActive],
    assigned inside the branches that add the counters, and the condition
    [wifiOffloadActive || ethOffloadActive] of the warning. *)
Definition wifiOffloadActive (data : jsval) : jsval :=
  let wifiOffload := js_and (get data "wifi") (get (get data "wifi") "offload") in
  if truthy (js_and wifiOffload (get wifiOffload "dataTransferred")) then
    js_and (get wifiOffload "enabled")
      (if strict_eq_str (get wifiOffload "status") "On"
       then get wifiOffload "connectionSsid"
       else JBool false)
  else JBool false.

Definition ethOffloadActive (data : jsval) : jsval :=
  let ethOffload := js_and (get data "ethernet") (get (get data "ethernet") "offload") in
  if truthy ethOffload then
    js_and (get ethOffload "enabled")
      (js_and (get ethOffload "on")
         (js_and (get ethOffload "ipv4Addr")
            (JBool (negb (strict_eq_str (get ethOffload "ipv4Addr") "0.0.0.0")))))
  else JBool false.

Definition warning (data : jsval) : jsval :=
  js_or (wifiOffloadActive data) (ethOffloadActive data).

(** A snapshot with WiFi offload counters and the [wwanadv] object. *)
Definition example : jsval :=
  match conventionExample with
  | JObj fields => JObj (<["wwanadv" := obj [("curBand", JStr "LTE B3")]]> fields)
  | v => v
  end.

End Debug.

(** * The schema migration ([tools/migrate-db.js]) *)

Module Migrate.






End Migrate.
(** * The session with the router ([httpRequest] to [fetchStats]) *)

Module Net.

(** The three paths the program requests; the counter [x=Date.now()] of the
    query string is left out. *)
Inductive Endpoint : Type :=
  | SessCdTmp      (* GET /sess_cd_tmp *)
  | ModelJson      (* GET /api/model.json?internalapi=1 *)
  | FormsConfig.   (* POST /Forms/config *)

(** The [options] and [postData] of a call of [httpRequest]: [cookie] is the
    value of the [Cookie] header, [None] when the request has no such
    header. *)
Record Request : Type := {
  endpoint : Endpoint;
  cookie : option jsval;
  postData : option string
}.

(** The error a promise is rejected with, or a [SyntaxError] of
    [JSON.parse] (which has no [code]). *)
Record Error : Type := {
  code : option string;
  message : string
}.

(** What happens to one request: [set_cookie] is [res.headers['set-cookie']]
    when the response callback ran and the header is there; [outcome] is the
    body the promise resolves with, or the error it is rejected with (a
    socket error, the timeout).  Every request is taken to settle. *)
Record Reply : Type := {
  set_cookie : option (list string);
  outcome : string + Error
}.

(** The globals [sessionCookie] and [PASSWORD], and the requests made so
    far, oldest first. *)
Record Session : Type := {
  sessionCookie : jsval;
  PASSWORD : jsval;
  requests : list Request
}.

(** [s.split(';')[0]]: the part of [s] before its first semicolon. *)
Fixpoint split_head (s : string) : string :=
  match s with
  | String c rest =>
      if Ascii.eqb c ";" then EmptyString else String c (split_head rest)
  | EmptyString => EmptyString
  end.

(** Lines 477-483: the cookie kept from the [Set-Cookie] headers of a
    response.  A header that starts with [sessionId=] is a non-empty
    string, so [if (cookieHeader)] holds whenever [find] returns one. *)
Definition captureCookie (headers : option (list string)) (sessionCookie : jsval)
    : jsval :=
  match headers with
  | Some cookies =>
      match List.find (String.prefix "sessionId=") cookies with
      | Some cookieHeader => JStr (split_head cookieHeader)
      | None => sessionCookie
      end
  | None => sessionCookie
  end.

(** [s.trim()], on the ASCII white space. *)
Fixpoint trim_end (s : string) : string :=
  match s with
  | String c rest =>
      match trim_end rest with
      | EmptyString => if is_whitespace c then EmptyString else String c EmptyString
      | t => String c t
      end
  | EmptyString => EmptyString
  end.

Definition trim (s : string) : string := trim_end (trim_start s).

(** [hay.includes(needle)]. *)
Fixpoint includes (needle hay : string) : bool :=
  String.prefix needle hay
  || match hay with
     | String _ rest => includes needle rest
     | EmptyString => false
     end.

(** Line 601: the test for an HTML page in place of JSON. *)
Definition isHtml (body : string) : bool :=
  String.prefix "<!DOCTYPE" (trim body) || String.prefix "<html" (trim body).

(** Line 616. *)
Definition isNetworkError (error : Error) : bool :=
  match code error with
  | Some c =>
      String.eqb c "EHOSTUNREACH" || String.eqb c "ENETUNREACH"
      || String.eqb c "ECONNRESET"
  | None => false
  end.

Section Router.

(** [JSON.parse]: the value, or the message of the [SyntaxError]. *)
Variable JSON_parse : string -> jsval + string.

(** The router and the network: the reply to the last request of the list,
    which may depend on every request made before it. *)
Variable router : list Request -> Reply.

Definition httpRequest (options : Request) (s : Session)
    : (string + Error) * Session :=
  let sent := requests s ++ [options] in
  let reply := router sent in
  (outcome reply,
   {| sessionCookie := captureCookie (set_cookie reply) (sessionCookie s);
      PASSWORD := PASSWORD s;
      requests := sent |}).

Definition initSession (s : Session) : bool * Session :=
  let '(response, s1) :=
    httpRequest {| endpoint := SessCdTmp; cookie := None; postData := None |} s in
  match response with
  | inl _ => (true, s1)
  | inr _ => (false, s1)
  end.

(** [login]: every exception is caught and gives [false]: a rejected
    request, the [SyntaxError] of [JSON.parse], the TypeError of
    [data.session.secToken] when [data] or [data.session] is [null] or
    [undefined]. *)
Definition login (s : Session) : bool * Session :=
  let '(apiResponse, s1) :=
    httpRequest {| endpoint := ModelJson; cookie := Some (sessionCookie s);
                   postData := None |} s in
  match apiResponse with
  | inr _ => (false, s1)
  | inl body =>
      match JSON_parse body with
      | inr _ => (false, s1)
      | inl data =>
          if object_coercible data && object_coercible (get data "session") then
            let secToken := get (get data "session") "secToken" in
            let postData :=
              String.append "session.password="
                (String.append (toString (PASSWORD s1))
                   (String.append "&token=" (toString secToken))) in
            let '(response, s2) :=
              httpRequest {| endpoint := FormsConfig;
                             cookie := Some (sessionCookie s1);
                             postData := Some postData |} s1 in
            match response with
            | inl _ => (true, s2)
            | inr _ => (false, s2)
            end
          else (false, s1)
      end
  end.

Definition reAuthenticate (s : Session) : bool * Session :=
  let '(ok, s1) := initSession s in
  if ok then login s1 else (false, s1).

(** The body of [fetchStats]; [again] stands for the recursive call
    [fetchStats(false)].  The result [JNull] is [null]. *)
Definition fetchStatsWith (again : Session -> jsval * Session)
    (retryOnAuthFailure : bool) (s : Session) : jsval * Session :=
  let '(response, s1) :=
    httpRequest {| endpoint := ModelJson; cookie := Some (sessionCookie s);
                   postData := None |} s in
  let catch (error : Error) : jsval * Session :=
    if isNetworkError error then (JNull, s1)
    else if includes "Unexpected token" (message error) && retryOnAuthFailure then
      let '(ok, s2) := reAuthenticate s1 in
      if ok then again s2 else (JNull, s2)
    else (JNull, s1) in
  match response with
  | inr error => catch error
  | inl body =>
      if isHtml body then
        if retryOnAuthFailure then
          let '(ok, s2) := reAuthenticate s1 in
          if ok then again s2 else (JNull, s2)
        else (JNull, s1)
      else
        match JSON_parse body with
        | inl data => (data, s1)
        | inr msg => catch {| code := None; message := msg |}
        end
  end.

(** [fetchStats]: the recursive call passes [false], and a call with
    [false] does not recurse, so two unfoldings of the body are the whole
    function. *)
Definition fetchStats (retryOnAuthFailure : bool) (s : Session) : jsval * Session :=
  fetchStatsWith (fetchStatsWith (fun s' => (JNull, s')) false)
    retryOnAuthFailure s.

(** The replies after which [fetchStats] takes the session for expired: an
    HTML page, or an error whose message contains [Unexpected token] and
    which is not one of the three network errors. *)
Definition looksExpired (response : string + Error) : bool :=
  match response with
  | inl body =>
      isHtml body
      || match JSON_parse body with
         | inl _ => false
         | inr msg => includes "Unexpected token" msg
         end
  | inr error =>
      negb (isNetworkError error) && includes "Unexpected token" (message error)
  end.

(** [runs s new s']: the calls [new] of [httpRequest], made in this order
    from [s], lead to [s'], each request carrying no [Cookie] header or the
    session cookie of the moment. *)
Inductive runs : Session -> list Request -> Session -> Prop :=
  | runs_nil (s : Session) : runs s [] s
  | runs_cons (s : Session) (options : Request) (new : list Request) (s' : Session) :
      cookie options = None \/ cookie options = Some (sessionCookie s) ->
      runs (snd (httpRequest options s)) new s' ->
      runs s (options :: new) s'.

End Router.

(** The requests of [after] that were made since [before]. *)
Definition newRequests (before after : Session) : list Request :=
  drop (length (requests before)) (requests after).

(** The order of the requests of one [fetchStats(true)] that
    re-authenticates and retries. *)
Definition protocol : list Endpoint :=
  [ModelJson; SessCdTmp; ModelJson; FormsConfig; ModelJson].

(** A session cookie as the router sets it: a string that starts with
    [sessionId=] and has no semicolon. *)
Definition isSessionId (v : jsval) : Prop :=
  exists c : string,
    v = JStr c /\ String.prefix "sessionId=" c = true /\
    includes ";" c = false.

(** The value of a [Cookie] header the program may send: [null] before any
    session, else a session cookie. *)
Definition cookieOk (v : jsval) : Prop := v = JNull \/ isSessionId v.

(** A router whose session has expired: it answers the request for the
    statistics with its login page, then hands out a session cookie, a
    security token, accepts the login and answers the second request for
    the statistics. *)
Definition expiredRouter (sent : list Request) : Reply :=
  match length sent with
  | 1%nat => {| set_cookie := None;
                outcome := inl "<!DOCTYPE html><html><body>Login</body></html>" |}
  | 2%nat => {| set_cookie := Some ["lang=en"; "sessionId=0a1b2c; Path=/; HttpOnly"];
                outcome := inl "" |}
  | 3%nat => {| set_cookie := None; outcome := inl "token" |}
  | 4%nat => {| set_cookie := None; outcome := inl "" |}
  | _ => {| set_cookie := None; outcome := inl "stats" |}
  end.

(** A stand-in for [JSON.parse] on the bodies of [expiredRouter]. *)
Definition parseExample (body : string) : jsval + string :=
  if String.eqb body "token" then
    inl (obj [("session", obj [("secToken", JStr "5f3a")])])
  else if String.eqb body "stats" then inl (poll_stats firstPoll)
  else inr "Unexpected token < in JSON at position 0".

Definition newSession : Session :=
  {| sessionCookie := JNull; PASSWORD := JStr "secret"; requests := [] |}.

End Net.
(** * The bandwidth histogram ([createHistogram]) *)

Module Histogram.

(** The four glyphs of a cell: a full block, a half block, a low bar and a
    space. *)
Inductive Cell : Type := Full | Half | Low | Blank.

Definition height (c : Cell) : nat :=
  match c with
  | Full => 3
  | Half => 2
  | Low => 1
  | Blank => 0
  end.

(** [Math.max(...data, 1)]. *)
Definition maxOf (data : list Q) : Q := fold_right Qmax 1%Q data.

(** [a > b]. *)
Definition gt (a b : Q) : bool := negb (Qle_bool a b).

(** The body of the inner loop, lines 672-683. *)
Definition cell (max : Q) (row : Z) (value : Q) : Cell :=
  let normalizedHeight := ((value / max) * 5)%Q in
  if gt normalizedHeight (inject_Z row + (3 # 4)) then Full
  else if gt normalizedHeight (inject_Z row + (1 # 4)) then Half
  else if gt normalizedHeight (inject_Z row) then Low
  else Blank.

(** [for (let row = 4; row >= 0; row--)]. *)
Definition rows : list Z := [4; 3; 2; 1; 0].

(** The array [lines] before the glyphs are joined: one list of cells for
    each row, from the top. *)
Definition lines (data : list Q) : list (list Cell) :=
  map (fun row => map (cell (maxOf data) row) data) rows.

Definition reset : string := String (ascii_of_nat 27) "[0m".
Definition newline : string := String (ascii_of_nat 10) "".

Definition glyph (color : string) (c : Cell) : string :=
  match c with
  | Full => String.append color (String.append "█" reset)
  | Half => String.append color (String.append "▄" reset)
  | Low => String.append color (String.append "▁" reset)
  | Blank => " "
  end.

(** [createHistogram(data, maxWidth, color)]; [maxWidth] is not used by
    the source. *)
Definition createHistogram (data : list Q) (color : string) : string :=
  match data with
  | [] => ""
  | _ :: _ =>
      String.concat newline
        (map (fun cells =>
                String.append "  " (String.concat "" (map (glyph color) cells)))
             (lines data))
  end.

(** The cell of the given line (from the top) and column. *)
Definition cellAt (data : list Q) (line column : nat) : option Cell :=
  match lines data !! line with
  | Some cells => cells !! column
  | None => None
  end.

End Histogram.

(** * The masked password prompt ([readPasswordMasked]) *)

Module Prompt.

Inductive Status : Type :=
  | Reading     (* the listener is installed *)
  | Resolved    (* the promise is resolved with [pass] *)
  | Exited.     (* [process.exit(0)] *)

(** [pass], what was written to the terminal after the prompt, and the
    state of the listener.  Chunks and the password are byte strings. *)
Record State : Type := {
  pass : string;
  written : list string;
  status : Status
}.

Definition key (n : nat) : string := String (ascii_of_nat n) "".

(** What erases one star: a backspace, a space, a backspace. *)
Definition erase : string :=
  String (ascii_of_nat 8) (String " "%char (String (ascii_of_nat 8) "")).

(** [pass.slice(0, -1)]. *)
Definition slice_last (s : string) : string :=
  String.substring 0 (String.length s - 1) s.

(** The listener [onData].  The comparisons [char >= ' '] and
    [char <= '~'] are comparisons of strings. *)
Definition onData (char : string) (st : State) : State :=
  if String.eqb char (key 10) || String.eqb char (key 13) || String.eqb char (key 4)
  then {| pass := pass st; written := written st ++ [key 10]; status := Resolved |}
  else if String.eqb char (key 3)
  then {| pass := pass st; written := written st ++ [key 10]; status := Exited |}
  else if String.eqb char (key 127) || String.eqb char (key 8)
  then
    if (0 <? String.length (pass st))%nat
    then {| pass := slice_last (pass st); written := written st ++ [erase];
            status := Reading |}
    else st
  else if String.leb " " char && String.leb char "~"
  then {| pass := String.append (pass st) char; written := written st ++ ["*"];
          status := Reading |}
  else st.

(** A chunk from the terminal: the listener is removed when the promise
    is resolved or the process exits. *)
Definition deliver (st : State) (char : string) : State :=
  match status st with
  | Reading => onData char st
  | _ => st
  end.

(** [readPasswordMasked] on the chunks the terminal delivers, in order. *)
Definition readPasswordMasked (chunks : list string) : State :=
  foldl deliver {| pass := ""; written := []; status := Reading |} chunks.

(** The stars left on the terminal: those written less those erased. *)
Definition stars (written : list string) : Z :=
  Z.of_nat (length (filter (fun w => w = "*") written))
  - Z.of_nat (length (filter (fun w => w = erase) written)).

Definition is_printable (c : ascii) : bool :=
  let n := Z.of_N (N_of_ascii c) in (32 <=? n) && (n <=? 126).

Fixpoint printable (s : string) : bool :=
  match s with
  | String c rest => is_printable c && printable rest
  | EmptyString => true
  end.

End Prompt.
(** * Properties *)

(** ** Parsing of counter fields *)

Section ParseInt.








End ParseInt.

(** ** Numbers given as JSON numerals *)

Section Numerals.

Lemma uint_value_acc (d : Decimal.uint) (acc : positive) :
  uint_value d (Z.pos acc) = Z.pos (Pos.of_uint_acc d acc).
Proof.
  revert acc. induction d; intros acc; simpl; trivial;
    match goal with
    | |- uint_value _ ?a = _ =>
        match goal with
        | |- _ = Z.pos (Pos.of_uint_acc _ ?q) =>
            replace a with (Z.pos q) by lia; apply IHd
        end
    end.
Qed.

Lemma uint_value_0 (d : Decimal.uint) :
  uint_value d 0 = Z.of_N (Pos.of_uint d).
Proof.
  induction d; simpl; trivial; apply uint_value_acc.
Qed.

Lemma parse_digits_uint (d : Decimal.uint) (a : Z) :
  parse_digits 10 (NilEmpty.string_of_uint d) (Some a) = Some (uint_value d a).
Proof.
  revert a. induction d; intros a; simpl; trivial; apply IHd.
Qed.

Lemma parse_digits_uint_start (d : Decimal.uint) :
  d <> Decimal.Nil ->
  parse_digits 10 (NilEmpty.string_of_uint d) None = Some (uint_value d 0).
Proof.
  destruct d; intros Hd; try congruence; simpl; apply parse_digits_uint.
Qed.

Lemma numeral_prefix (d : Decimal.uint) :
  d <> Decimal.Nil ->
  let s := NilEmpty.string_of_uint d in
  trim_start s = s /\ strip_sign s = (1, s) /\ strip_radix s = (10, s).
Proof.
  destruct d; intros Hd; try congruence; repeat split; try reflexivity;
    destruct d; reflexivity.
Qed.

(** [parseInt] gives back an integer written as a JSON numeral. *)
Lemma parseInt_JNum (z : Z) : parseInt (JNum z) = Some z.
Proof.
  destruct z as [|p|p]; [reflexivity| |].
  - unfold parseInt, toString. simpl Z.to_int. simpl NilZero.string_of_int.
    pose proof (DecimalPos.Unsigned.to_uint_nonnil p) as Hnn.
    replace (NilZero.string_of_uint (Pos.to_uint p))
      with (NilEmpty.string_of_uint (Pos.to_uint p))
      by (destruct (Pos.to_uint p); [congruence | reflexivity ..]).
    destruct (numeral_prefix _ Hnn) as (-> & -> & ->).
    rewrite parse_digits_uint_start by assumption.
    rewrite uint_value_0, DecimalPos.Unsigned.of_to. f_equal.
  - unfold parseInt, toString. simpl Z.to_int. simpl NilZero.string_of_int.
    pose proof (DecimalPos.Unsigned.to_uint_nonnil p) as Hnn.
    replace (NilZero.string_of_uint (Pos.to_uint p))
      with (NilEmpty.string_of_uint (Pos.to_uint p))
      by (destruct (Pos.to_uint p); [congruence | reflexivity ..]).
    change (trim_start (String "-" (NilEmpty.string_of_uint (Pos.to_uint p))))
      with (String "-" (NilEmpty.string_of_uint (Pos.to_uint p))).
    change (strip_sign (String "-" (NilEmpty.string_of_uint (Pos.to_uint p))))
      with (-1, NilEmpty.string_of_uint (Pos.to_uint p)).
    destruct (numeral_prefix _ Hnn) as (_ & _ & ->).
    rewrite parse_digits_uint_start by assumption.
    rewrite uint_value_0, DecimalPos.Unsigned.of_to. f_equal.
Qed.

Lemma counter_JNum (z : Z) : or_zero (parseInt (JNum z)) = z.
Proof.
  rewrite parseInt_JNum. simpl. destruct (z =? 0) eqn:E; lia.
Qed.

End Numerals.

(** ** The normaliser *)

Section Normalizer.

(** The aggregate computed at lines 821-836 is the sum of the breakdown
    computed at lines 904-915. *)
Lemma aggregate_is_sum (data : jsval) :
  let n := normalize data in
  totalDownload n = cellularDownload n + wifiOffloadDownload n + ethernetOffloadDownload n /\
  totalUpload n = cellularUpload n + wifiOffloadUpload n + ethernetOffloadUpload n.
Proof.
  unfold normalize, aggregateTotals; cbn beta zeta.
  cbn [totalDownload totalUpload cellularDownload cellularUpload
       wifiOffloadDownload wifiOffloadUpload
       ethernetOffloadDownload ethernetOffloadUpload].
  destruct (truthy (js_and (wifiOffload_of data)
                      (get (wifiOffload_of data) "dataTransferred")));
    destruct (truthy (ethOffload_of data)); cbn [fst snd]; lia.
Qed.

(** The property paths of a snapshot built from its six counter fields. *)
Section SnapshotPaths.

Variables rx tx lifetime wtx wrx etx erx : jsval.

Let S : jsval :=
  snapshot rx tx lifetime (wifiCounters wtx wrx) (ethernetCounters etx erx).

Lemma snapshot_rx : get (get S "wwan") "dataTransferredRx" = rx.
Proof. vm_compute. reflexivity. Qed.

Lemma snapshot_tx : get (get S "wwan") "dataTransferredTx" = tx.
Proof. vm_compute. reflexivity. Qed.

Lemma snapshot_wifi :
  truthy (js_and (wifiOffload_of S) (get (wifiOffload_of S) "dataTransferred")) = true.
Proof. vm_compute. reflexivity. Qed.

Lemma snapshot_wifi_tx : get (get (wifiOffload_of S) "dataTransferred") "tx" = wtx.
Proof. vm_compute. reflexivity. Qed.

Lemma snapshot_wifi_rx : get (get (wifiOffload_of S) "dataTransferred") "rx" = wrx.
Proof. vm_compute. reflexivity. Qed.

Lemma snapshot_ethernet : truthy (ethOffload_of S) = true.
Proof. vm_compute. reflexivity. Qed.

Lemma snapshot_ethernet_tx : get (ethOffload_of S) "tx" = etx.
Proof. vm_compute. reflexivity. Qed.

Lemma snapshot_ethernet_rx : get (ethOffload_of S) "rx" = erx.
Proof. vm_compute. reflexivity. Qed.

Lemma normalize_snapshot :
  let n := normalize S in
  cellularDownload n = or_zero (parseInt rx) /\
  cellularUpload n = or_zero (parseInt tx) /\
  wifiOffloadDownload n = or_zero (parseInt wtx) /\
  wifiOffloadUpload n = or_zero (parseInt wrx) /\
  ethernetOffloadDownload n = or_zero (parseInt etx) /\
  ethernetOffloadUpload n = or_zero (parseInt erx).
Proof.
  unfold normalize; cbn beta zeta.
  cbn [cellularDownload cellularUpload wifiOffloadDownload wifiOffloadUpload
       ethernetOffloadDownload ethernetOffloadUpload].
  rewrite snapshot_rx, snapshot_tx, snapshot_wifi, snapshot_wifi_tx,
    snapshot_wifi_rx, snapshot_ethernet, snapshot_ethernet_tx,
    snapshot_ethernet_rx.
  repeat split; reflexivity.
Qed.

End SnapshotPaths.

Lemma truthy_js_and (a b : jsval) :
  truthy (js_and a b) = truthy a && truthy b.
Proof. unfold js_and. destruct (truthy a) eqn:E; simpl; auto. Qed.



End Normalizer.

(** ** Queries on the tables *)

Section Tables.

Context {A : Type} (key : A -> Z).

Lemma length_insert_desc (x : A) (l : list A) :
  length (insert_desc key x l) = S (length l).
Proof.
  induction l as [|y l IH]; simpl; [reflexivity|].
  destruct (key x <? key y); simpl; congruence.
Qed.

Lemma length_order_by_desc (l : list A) :
  length (order_by_desc key l) = length l.
Proof.
  induction l as [|x l IH]; simpl; [reflexivity|].
  now rewrite length_insert_desc, IH.
Qed.

Lemma elem_of_insert_desc (x y : A) (l : list A) :
  y ∈ insert_desc key x l <-> y = x \/ y ∈ l.
Proof.
  induction l as [|z l IH]; simpl.
  - rewrite list_elem_of_singleton, elem_of_nil. tauto.
  - destruct (key x <? key z).
    + rewrite !elem_of_cons, IH. tauto.
    + rewrite !elem_of_cons. tauto.
Qed.

Lemma elem_of_order_by_desc (y : A) (l : list A) :
  y ∈ order_by_desc key l <-> y ∈ l.
Proof.
  induction l as [|x l IH]; simpl; [reflexivity|].
  rewrite elem_of_insert_desc, elem_of_cons, IH. tauto.
Qed.

End Tables.

Section MinMax.

Lemma foldl_min_spec (l : list Z) (a : Z) :
  (foldl Z.min a l = a \/ foldl Z.min a l ∈ l) /\
  foldl Z.min a l <= a /\
  Forall (fun x => foldl Z.min a l <= x) l.
Proof.
  revert a. induction l as [|x l IH]; intros a; simpl.
  - split; [now left|]. split; [lia|constructor].
  - destruct (IH (Z.min a x)) as (Hin & Hle & Hall).
    split; [|split].
    + destruct Hin as [Heq|Hin].
      * rewrite Heq. destruct (Z.min_spec a x) as [[_ ->]|[_ ->]];
          [now left | right; apply elem_of_cons; now left].
      * right. apply elem_of_cons. now right.
    + lia.
    + constructor; [lia|exact Hall].
Qed.

Lemma foldl_max_spec (l : list Z) (a : Z) :
  (foldl Z.max a l = a \/ foldl Z.max a l ∈ l) /\
  a <= foldl Z.max a l /\
  Forall (fun x => x <= foldl Z.max a l) l.
Proof.
  revert a. induction l as [|x l IH]; intros a; simpl.
  - split; [now left|]. split; [lia|constructor].
  - destruct (IH (Z.max a x)) as (Hin & Hle & Hall).
    split; [|split].
    + destruct Hin as [Heq|Hin].
      * rewrite Heq. destruct (Z.max_spec a x) as [[_ ->]|[_ ->]];
          [right; apply elem_of_cons; now left | now left].
      * right. apply elem_of_cons. now right.
    + lia.
    + constructor; [lia|exact Hall].
Qed.

(** [MIN] is NULL exactly on no row, and else a least selected value. *)
Lemma sql_min_spec (l : list Z) :
  match sql_min l with
  | None => l = []
  | Some m => m ∈ l /\ Forall (fun x => m <= x) l
  end.
Proof.
  destruct l as [|x l]; simpl; [reflexivity|].
  destruct (foldl_min_spec l x) as (Hin & Hle & Hall).
  split.
  - apply elem_of_cons. destruct Hin; [left|right]; assumption.
  - constructor; assumption.
Qed.

Lemma sql_max_spec (l : list Z) :
  match sql_max l with
  | None => l = []
  | Some m => m ∈ l /\ Forall (fun x => x <= m) l
  end.
Proof.
  destruct l as [|x l]; simpl; [reflexivity|].
  destruct (foldl_max_spec l x) as (Hin & Hle & Hall).
  split.
  - apply elem_of_cons. destruct Hin; [left|right]; assumption.
  - constructor; assumption.
Qed.

End MinMax.

(** ** Usage windows *)

Section Usage.

Lemma elem_of_rowsSince (r : TimeSeriesRecord) (cutoffTime : Z) (d : Database) :
  r ∈ rowsSince cutoffTime d <-> cutoffTime <= timestamp r /\ r ∈ timeseries_data d.
Proof. unfold rowsSince. now rewrite list_elem_of_filter. Qed.

(** No row in the window: the result is [null]. *)
Lemma usageSince_empty (cutoffTime : Z) (d : Database) :
  rowsSince cutoffTime d = [] -> usageSince cutoffTime d = None.
Proof.
  intros H. unfold usageSince, start_bytes. now rewrite H.
Qed.

(** At least one row in the window: the result is the spread between a
    largest and a smallest aggregate of the window. *)
Lemma usageSince_nonempty (cutoffTime : Z) (d : Database) :
  rowsSince cutoffTime d <> [] ->
  exists lo hi : TimeSeriesRecord,
    lo ∈ rowsSince cutoffTime d /\ hi ∈ rowsSince cutoffTime d /\
    (forall r, r ∈ rowsSince cutoffTime d ->
               aggregateBytes lo <= aggregateBytes r <= aggregateBytes hi) /\
    start_bytes cutoffTime d = Some (aggregateBytes lo) /\
    end_bytes cutoffTime d = Some (aggregateBytes hi) /\
    usageSince cutoffTime d = Some (aggregateBytes hi - aggregateBytes lo).
Proof.
  intros Hne. unfold usageSince, start_bytes, end_bytes.
  set (rows := rowsSince cutoffTime d) in *.
  pose proof (sql_min_spec (map aggregateBytes rows)) as Hmin.
  pose proof (sql_max_spec (map aggregateBytes rows)) as Hmax.
  destruct (sql_min (map aggregateBytes rows)) as [s|];
    [|destruct rows; [congruence|discriminate]].
  destruct (sql_max (map aggregateBytes rows)) as [e|];
    [|destruct rows; [congruence|discriminate]].
  destruct Hmin as (Hs & Hsall), Hmax as (He & Heall).
  apply list_elem_of_fmap in Hs as (lo & -> & Hlo).
  apply list_elem_of_fmap in He as (hi & -> & Hhi).
  exists lo, hi. repeat split; try assumption.
  - rewrite Forall_forall in Hsall. apply Hsall.
    apply list_elem_of_fmap. now exists r.
  - rewrite Forall_forall in Heall. apply Heall.
    apply list_elem_of_fmap. now exists r.
Qed.

End Usage.

(** ** Gap interpolation *)

Section Gap.

Lemma interpolatedRecord_zeroSession (ts lt : Z) :
  zeroSession (interpolatedRecord ts lt).
Proof. repeat split. Qed.

Lemma interpolatedRows_zeroSession (t0 l0 : Z) (bpi : Q) (n : Z) :
  Forall zeroSession (interpolatedRows t0 l0 bpi n).
Proof.
  unfold interpolatedRows. apply Forall_fmap, Forall_forall.
  intros k _. apply interpolatedRecord_zeroSession.
Qed.

Lemma length_interpolatedRows (t0 l0 : Z) (bpi : Q) (n : Z) :
  length (interpolatedRows t0 l0 bpi n) = (Z.to_nat n - 1)%nat.
Proof. unfold interpolatedRows. now rewrite length_map, length_seq. Qed.

(** [handleDataGap] only appends to [timeseries_data], and what it appends
    are interpolated rows. *)
Lemma handleDataGap_appends (currentTimestamp lifetimeBytes : Z) (d : Database) :
  let after := snd (handleDataGap currentTimestamp lifetimeBytes d) in
  bandwidth_history after = bandwidth_history d /\
  timeseries_data after = timeseries_data d ++ insertedRows d after /\
  Forall zeroSession (insertedRows d after).
Proof.
  unfold handleDataGap, insertedRows.
  destruct (lastEntry d) as [[t0 l0]|]; cbn zeta beta.
  2: { cbn [snd]. rewrite drop_all, app_nil_r. auto. }
  repeat match goal with
         | |- context [if ?c then _ else _] => destruct c
         end; cbn [snd timeseries_data bandwidth_history];
    rewrite ?drop_app_length, ?drop_all, ?app_nil_r;
    auto using interpolatedRows_zeroSession.
Qed.

(** The number of inserted rows when the guards of [handleDataGap] hold:
    one less than the number of whole poll intervals in the gap. *)
Lemma handleDataGap_count (currentTimestamp lifetimeBytes t0 l0 : Z) (d : Database) :
  lastEntry d = Some (t0, l0) ->
  POLL_INTERVAL * 3 < currentTimestamp - t0 ->
  l0 < lifetimeBytes ->
  (currentTimestamp - t0) / POLL_INTERVAL < 24 * 60 * 60 * 1000 / POLL_INTERVAL ->
  let r := handleDataGap currentTimestamp lifetimeBytes d in
  fst r = true /\
  length (insertedRows d (snd r))
  = (Z.to_nat ((currentTimestamp - t0) / POLL_INTERVAL) - 1)%nat.
Proof.
  intros Hlast Hgap Hlife Hday. unfold handleDataGap. rewrite Hlast.
  cbn zeta beta.
  assert (Hn : Qfloor (inject_Z (currentTimestamp - t0) / inject_Z POLL_INTERVAL)
               = (currentTimestamp - t0) / POLL_INTERVAL).
  { unfold POLL_INTERVAL, Qdiv, Qmult, Qinv, inject_Z, Qfloor. simpl.
    f_equal; lia. }
  rewrite Hn.
  assert (0 < (currentTimestamp - t0) / POLL_INTERVAL).
  { apply Z.div_str_pos. unfold POLL_INTERVAL in *. lia. }
  replace (POLL_INTERVAL * 3 <? currentTimestamp - t0) with true
    by (symmetry; apply Z.ltb_lt; lia).
  replace (l0 <? lifetimeBytes) with true by (symmetry; apply Z.ltb_lt; lia).
  replace (0 <? (currentTimestamp - t0) / POLL_INTERVAL) with true
    by (symmetry; apply Z.ltb_lt; lia).
  replace ((currentTimestamp - t0) / POLL_INTERVAL <? 24 * 60 * 60 * 1000 / POLL_INTERVAL)
    with true by (symmetry; apply Z.ltb_lt; lia).
  replace (0 <? lifetimeBytes - l0) with true by (symmetry; apply Z.ltb_lt; lia).
  cbn [andb fst snd]. split; [reflexivity|].
  unfold insertedRows. cbn [timeseries_data].
  now rewrite drop_app_length, length_interpolatedRows.
Qed.



End Gap.

(** ** Speeds *)

Section Speeds.

Lemma calculateBandwidth_nonneg (currentBytes previousBytes timeInterval : Z) :
  (0 <= calculateBandwidth currentBytes previousBytes timeInterval)%Q.
Proof.
  unfold calculateBandwidth.
  destruct (previousBytes =? 0); [apply Qle_refl|apply Q.le_max_l].
Qed.



Lemma Qpositive_spec (a : Q) : Qpositive a = true <-> (0 < a)%Q.
Proof.
  unfold Qpositive. rewrite negb_true_iff, <- not_true_iff_false, Qle_bool_iff.
  split; [apply Qnot_le_lt | apply Qlt_not_le].
Qed.

Lemma speed_nonneg (bytes : Z) (seconds : Q) :
  0 <= bytes -> (0 < seconds)%Q -> (0 <= inject_Z bytes / seconds)%Q.
Proof.
  intros Hb Hs. apply Qle_shift_div_l; [exact Hs|].
  rewrite Qmult_0_l. change 0%Q with (inject_Z 0). now rewrite <- Zle_Qle.
Qed.

(** Every speed recomputed from the time series is non-negative, and the
    three result lists grow together. *)
Lemma speedsBetween_spec (rows : list TimeSeriesRecord) :
  let s := speedsBetween rows in
  Forall (Qle 0) (series_download s) /\
  Forall (Qle 0) (series_upload s) /\
  length (series_upload s) = length (series_download s) /\
  length (series_timestamps s) = length (series_download s) /\
  (length (series_download s) <= length rows - 1)%nat.
Proof.
  induction rows as [|previous rest IH]; [cbn; auto 6|].
  destruct rest as [|current rest']; [cbn; auto 6|].
  cbn zeta in IH |- *.
  change (speedsBetween (previous :: current :: rest')) with
    (let later := speedsBetween (current :: rest') in
     let timeDiffSec := (inject_Z (timestamp current - timestamp previous) / 1000)%Q in
     let rxDiff := total_rx_bytes current - total_rx_bytes previous in
     let txDiff := total_tx_bytes current - total_tx_bytes previous in
     if (0 <=? rxDiff) && (0 <=? txDiff) && Qpositive timeDiffSec then
       {| series_download := (inject_Z rxDiff / timeDiffSec)%Q :: series_download later;
          series_upload := (inject_Z txDiff / timeDiffSec)%Q :: series_upload later;
          series_timestamps := timestamp current :: series_timestamps later |}
     else later).
  cbn zeta.
  destruct IH as (Hd & Hu & Hlu & Hlt & Hlen).
  destruct ((0 <=? _) && (0 <=? _) && Qpositive _) eqn:E.
  - apply andb_true_iff in E as [E Hpos].
    apply andb_true_iff in E as [Hrx Htx].
    apply Z.leb_le in Hrx, Htx. apply Qpositive_spec in Hpos.
    cbn [series_download series_upload series_timestamps length].
    split; [constructor; auto using speed_nonneg|].
    split; [constructor; auto using speed_nonneg|].
    cbn [length] in *. lia.
  - repeat split; auto. cbn [length] in *. lia.
Qed.


(** Over one poll interval and for a counter that did not go down, the
    recomputation and [calculateBandwidth] agree on a non-zero previous
    counter: they differ only in the columns they are fed. *)
Lemma recomputed_speed_of_interval (bytesDiff : Z) :
  0 <= bytesDiff ->
  (inject_Z bytesDiff / (inject_Z POLL_INTERVAL / 1000)
   == Qmax 0 (inject_Z bytesDiff / inject_Z POLL_INTERVAL * 1000))%Q.
Proof.
  intros H.
  rewrite Q.max_r.
  - unfold POLL_INTERVAL, Qeq, Qdiv, Qmult, Qinv, inject_Z. simpl. lia.
  - unfold POLL_INTERVAL, Qle, Qdiv, Qmult, Qinv, inject_Z. simpl. lia.
Qed.

(** Two adjacent rows one poll interval apart, with columns that did not
    go down and were non-zero in the earlier row: the loop of
    [calculateSpeedsFromTimeseries] yields one sample, and the speed it
    derives from a column is [calculateBandwidth] over the two values of
    that column. *)
Lemma recomputed_pair (prev curr : TimeSeriesRecord) :
  timestamp curr - timestamp prev = POLL_INTERVAL ->
  total_rx_bytes prev <= total_rx_bytes curr ->
  total_tx_bytes prev <= total_tx_bytes curr ->
  total_rx_bytes prev <> 0 ->
  total_tx_bytes prev <> 0 ->
  exists fromRx fromTx : Q,
    speedsBetween [prev; curr]
    = {| series_download := [fromRx];
         series_upload := [fromTx];
         series_timestamps := [timestamp curr] |} /\
    (fromRx == calculateBandwidth (total_rx_bytes curr) (total_rx_bytes prev)
                 POLL_INTERVAL)%Q /\
    (fromTx == calculateBandwidth (total_tx_bytes curr) (total_tx_bytes prev)
                 POLL_INTERVAL)%Q.
Proof.
  intros Hdt Hrx Htx Hrx0 Htx0.
  cbn [speedsBetween]. rewrite Hdt.
  replace (0 <=? total_rx_bytes curr - total_rx_bytes prev) with true
    by (symmetry; apply Z.leb_le; lia).
  replace (0 <=? total_tx_bytes curr - total_tx_bytes prev) with true
    by (symmetry; apply Z.leb_le; lia).
  replace (Qpositive (inject_Z POLL_INTERVAL / 1000)) with true by reflexivity.
  cbn [andb]. eexists _, _. split; [reflexivity|].
  unfold calculateBandwidth.
  apply Z.eqb_neq in Hrx0, Htx0. rewrite Hrx0, Htx0. cbn zeta.
  split; apply recomputed_speed_of_interval; lia.
Qed.


End Speeds.

(** ** The poll cycle and the in-memory history *)

Section Cycle.




(** The row a complete cycle writes: the column [total_rx_bytes] receives
    the upload aggregate and [total_tx_bytes] the download aggregate. *)
Lemma displayStats_saved_columns (data : jsval) (timestamp savedAt : Z) (st : PollerState) :
  cycleCompletes data st = true ->
  exists r : TimeSeriesRecord,
    last (timeseries_data (db (stateOf (displayStats data timestamp savedAt st))))
    = Some r /\
    total_rx_bytes r = totalUpload (normalize data) /\
    total_tx_bytes r = totalDownload (normalize data).
Proof.
  unfold cycleCompletes. rewrite !andb_true_iff.
  intros (((((((((H1 & H2) & H3) & H4) & H5) & H6) & H7) & H8) & H9) & H10).
  unfold displayStats. rewrite H1, H2, H3, H4, H5, H6, H7, H8, H9, H10.
  cbn [negb orb]. cbn zeta.
  destruct (aggregateTotals (previousStats st)) as [prevDownload prevUpload].
  cbn [stateOf db saveBandwidthData timeseries_data saveTimeseriesData].
  eexists. split; [apply last_snoc|]. split; reflexivity.
Qed.





Lemma runPolls_snoc (polls : list Poll) (p : Poll) (st : PollerState) :
  runPolls (polls ++ [p]) st
  = refresh (poll_stats p) (poll_timestamp p) (poll_savedAt p) (runPolls polls st).
Proof. unfold runPolls. now rewrite foldl_app. Qed.


End Cycle.

(** * The claims *)

(** C1 (the code departs from the claim).  The claim: speeds recomputed
    from two adjacent persisted rows equal the speeds the live cycle computed
    from the same two snapshots.  Every complete cycle writes the upload
    aggregate in the column [total_rx_bytes] and the download aggregate in
    [total_tx_bytes], because [displayStats] passes [totalUpload] and then
    [totalDownload] where [saveTimeseriesData] expects [totalRx] and then
    [totalTx]; the recomputation derives its download speed from
    [total_rx_bytes], as [calculateBandwidth] would over that column.  On
    two polls five seconds apart, with the download counter going
    1000 -> 1500 and the upload counter 200 -> 300, the live cycle records
    download 100 B/s and upload 20 B/s, while
    [calculateSpeedsFromTimeseries] returns download 20 B/s and upload
    100 B/s. *)
Theorem recomputed_speeds_are_swapped :
  (forall (data : jsval) (timestamp savedAt : Z) (st : PollerState),
      cycleCompletes data st = true ->
      exists r : TimeSeriesRecord,
        last (timeseries_data (db (stateOf (displayStats data timestamp savedAt st))))
        = Some r /\
        total_rx_bytes r = totalUpload (normalize data) /\
        total_tx_bytes r = totalDownload (normalize data)) /\
  (forall prev curr : TimeSeriesRecord,
      timestamp curr - timestamp prev = POLL_INTERVAL ->
      total_rx_bytes prev <= total_rx_bytes curr ->
      total_tx_bytes prev <= total_tx_bytes curr ->
      total_rx_bytes prev <> 0 ->
      total_tx_bytes prev <> 0 ->
      exists downloadSpeed uploadSpeed : Q,
        speedsBetween [prev; curr]
        = {| series_download := [downloadSpeed];
             series_upload := [uploadSpeed];
             series_timestamps := [timestamp curr] |} /\
        (downloadSpeed
         == calculateBandwidth (total_rx_bytes curr) (total_rx_bytes prev)
              POLL_INTERVAL)%Q /\
        (uploadSpeed
         == calculateBandwidth (total_tx_bytes curr) (total_tx_bytes prev)
              POLL_INTERVAL)%Q) /\
  (let live := bandwidthHistory afterTwoPolls in
   let recomputed := calculateSpeedsFromTimeseries 66 (db afterTwoPolls) in
   map Qred (download live) = [100%Q] /\
   map Qred (upload live) = [20%Q] /\
   map Qred (series_download recomputed) = [20%Q] /\
   map Qred (series_upload recomputed) = [100%Q] /\
   map (fun r => (timestamp r, total_rx_bytes r, total_tx_bytes r))
       (timeseries_data (db afterTwoPolls))
   = [(1700000000000, 200, 1000); (1700000005000, 300, 1500)]).
Proof.
  split; [exact displayStats_saved_columns|].
  split; [exact recomputed_pair|].
  vm_compute. repeat split; reflexivity.
Qed.

(** C2.  Convention conversion: for every raw snapshot the cellular
    download is read from the cellular rx field and the upload from tx,
    each offload download is read from the offload tx field and the upload
    from rx, and the aggregate is the sum of the per-source counters in
    these directions; for every snapshot whose fields are the
    numbers crx, ctx (cellular), wtx, wrx (WiFi offload), etx, erx (Ethernet
    offload), cellular rx is the download and tx the upload, while each
    offload source's tx is the download and rx the upload; and the snapshot
    with cellular rx=100, tx=50 and WiFi offload tx=30, rx=10 gives cellular
    100/50, WiFi offload 30/10 and aggregate 130/60. *)
Theorem convention_conversion :
  (forall data : jsval,
      let n := normalize data in
      let wifi := wifiOffload_of data in
      let ethernet := ethOffload_of data in
      cellularDownload n
      = or_zero (parseInt (get (get data "wwan") "dataTransferredRx")) /\
      cellularUpload n
      = or_zero (parseInt (get (get data "wwan") "dataTransferredTx")) /\
      wifiOffloadDownload n
      = (if truthy (js_and wifi (get wifi "dataTransferred"))
         then or_zero (parseInt (get (get wifi "dataTransferred") "tx")) else 0) /\
      wifiOffloadUpload n
      = (if truthy (js_and wifi (get wifi "dataTransferred"))
         then or_zero (parseInt (get (get wifi "dataTransferred") "rx")) else 0) /\
      ethernetOffloadDownload n
      = (if truthy ethernet then or_zero (parseInt (get ethernet "tx")) else 0) /\
      ethernetOffloadUpload n
      = (if truthy ethernet then or_zero (parseInt (get ethernet "rx")) else 0)) /\
  (forall data : jsval,
      let n := normalize data in
      totalDownload n
      = cellularDownload n + wifiOffloadDownload n + ethernetOffloadDownload n /\
      totalUpload n
      = cellularUpload n + wifiOffloadUpload n + ethernetOffloadUpload n) /\
  (forall (crx ctx wtx wrx etx erx : Z) (lifetime : jsval),
      let n := normalize (snapshot (JNum crx) (JNum ctx) lifetime
                            (wifiCounters (JNum wtx) (JNum wrx))
                            (ethernetCounters (JNum etx) (JNum erx))) in
      cellularDownload n = crx /\ cellularUpload n = ctx /\
      wifiOffloadDownload n = wtx /\ wifiOffloadUpload n = wrx /\
      ethernetOffloadDownload n = etx /\ ethernetOffloadUpload n = erx /\
      totalDownload n = crx + wtx + etx /\
      totalUpload n = ctx + wrx + erx) /\
  (let n := normalize conventionExample in
   cellularDownload n = 100 /\ cellularUpload n = 50 /\
   wifiOffloadDownload n = 30 /\ wifiOffloadUpload n = 10 /\
   totalDownload n = 130 /\ totalUpload n = 60).
Proof.
  split; [intros data; cbn zeta; repeat split; reflexivity|].
  split; [exact aggregate_is_sum|]. split.
  - intros crx ctx wtx wrx etx erx lifetime n.
    destruct (aggregate_is_sum
                (snapshot (JNum crx) (JNum ctx) lifetime
                   (wifiCounters (JNum wtx) (JNum wrx))
                   (ethernetCounters (JNum etx) (JNum erx)))) as (Hd & Hu).
    destruct (normalize_snapshot (JNum crx) (JNum ctx) lifetime (JNum wtx)
                (JNum wrx) (JNum etx) (JNum erx))
      as (H1 & H2 & H3 & H4 & H5 & H6).
    fold n in Hd, Hu, H1, H2, H3, H4, H5, H6.
    rewrite !counter_JNum in *.
    rewrite Hd, Hu, H1, H2, H3, H4, H5, H6. repeat split; reflexivity.
  - vm_compute. repeat split; reflexivity.
Qed.

(** C6.  Non-negativity: for a pair of snapshots, given by their persisted
    rows [prev] and [curr], with [curr] later than [prev] and aggregate
    counters that did not decrease, the speeds of [calculateBandwidth] are
    non-negative in both directions, and [calculateSpeedsFromTimeseries]'s
    loop yields exactly one sample for the pair, non-negative in both
    directions. *)
Theorem speeds_nonnegative (prev curr : TimeSeriesRecord) :
  timestamp prev < timestamp curr ->
  total_rx_bytes prev <= total_rx_bytes curr ->
  total_tx_bytes prev <= total_tx_bytes curr ->
  (0 <= calculateBandwidth (total_rx_bytes curr) (total_rx_bytes prev)
          (timestamp curr - timestamp prev))%Q /\
  (0 <= calculateBandwidth (total_tx_bytes curr) (total_tx_bytes prev)
          (timestamp curr - timestamp prev))%Q /\
  (0 <= calculateBandwidth (total_rx_bytes curr) (total_rx_bytes prev)
          POLL_INTERVAL)%Q /\
  (0 <= calculateBandwidth (total_tx_bytes curr) (total_tx_bytes prev)
          POLL_INTERVAL)%Q /\
  exists downloadSpeed uploadSpeed : Q,
    speedsBetween [prev; curr]
    = {| series_download := [downloadSpeed];
         series_upload := [uploadSpeed];
         series_timestamps := [timestamp curr] |} /\
    (0 <= downloadSpeed)%Q /\ (0 <= uploadSpeed)%Q.
Proof.
  intros Ht Hrx Htx.
  repeat (split; [apply calculateBandwidth_nonneg|]).
  assert (Hpos : (0 < inject_Z (timestamp curr - timestamp prev) / 1000)%Q).
  { apply Qlt_shift_div_l; [reflexivity|]. rewrite Qmult_0_l.
    change 0%Q with (inject_Z 0). rewrite <- Zlt_Qlt. lia. }
  cbn [speedsBetween].
  replace (0 <=? total_rx_bytes curr - total_rx_bytes prev) with true
    by (symmetry; apply Z.leb_le; lia).
  replace (0 <=? total_tx_bytes curr - total_tx_bytes prev) with true
    by (symmetry; apply Z.leb_le; lia).
  rewrite (proj2 (Qpositive_spec _) Hpos). cbn [andb].
  eexists _, _. split; [reflexivity|].
  split; apply speed_nonneg; (lia || exact Hpos).
Qed.

(** Witness of C6: the two rows written by [firstPoll] and [secondPoll]. *)
Lemma speeds_nonnegative_witness :
  let prev := cellularRow 1700000000000 200 1000 700000 in
  let curr := cellularRow 1700000005000 300 1500 700600 in
  exists downloadSpeed uploadSpeed : Q,
    speedsBetween [prev; curr]
    = {| series_download := [downloadSpeed];
         series_upload := [uploadSpeed];
         series_timestamps := [timestamp curr] |} /\
    (0 <= downloadSpeed)%Q /\ (0 <= uploadSpeed)%Q.
Proof.
  intros prev curr.
  apply (speeds_nonnegative prev curr); vm_compute; congruence.
Defined.

(** C10.  [calculateBandwidth] returns 0 whenever the previous counter is 0,
    whatever the current counter and the interval, so the live cycle reports
    speed 0 for an interval that starts from a zero aggregate; a counter
    that went from 0 to 5000 bytes in 5000 ms, a rate of 1000 B/s, is
    reported as 0. *)
Theorem zero_previous_counter_gives_zero_speed :
  (forall currentBytes timeInterval : Z,
      calculateBandwidth currentBytes 0 timeInterval = 0%Q) /\
  (forall data previous : jsval,
      (fst (aggregateTotals previous) = 0 -> liveDownloadSpeed data previous = 0%Q) /\
      (snd (aggregateTotals previous) = 0 -> liveUploadSpeed data previous = 0%Q)) /\
  calculateBandwidth 5000 0 5000 = 0%Q /\
  Qred (inject_Z (5000 - 0) / inject_Z 5000 * 1000) = 1000%Q.
Proof.
  split; [reflexivity|]. split; [|split; reflexivity].
  intros data previous. unfold liveDownloadSpeed, liveUploadSpeed.
  split; intros ->; reflexivity.
Qed.

(** C3 as stated fails: in the example of the claim (last row with lifetime
    1000 at time 0, new reading 2000 at ten poll intervals) [handleDataGap]
    inserts 9 rows, not 8. *)
Lemma gap_example_inserts_nine_rows :
  let r := handleDataGap (10 * POLL_INTERVAL) 2000 gapDatabase in
  length (insertedRows gapDatabase (snd r)) = 9%nat /\
  length (insertedRows gapDatabase (snd r)) <> 8%nat.
Proof.
  vm_compute. split; [reflexivity|discriminate].
Qed.

(** C3, amended.  When the last row has lifetime 1000 at time 0 and the new
    reading is 2000 at ten poll intervals, [handleDataGap] appends exactly 9
    interpolated rows, one per poll interval strictly between the two
    readings; their lifetime values 1100, ..., 1900 increase strictly from
    1000 towards 2000, and the consecutive differences, the step to the new
    reading included, add up to 1000. *)
Theorem gap_interpolation_example (d : Database) :
  lastEntry d = Some (0, 1000) ->
  let r := handleDataGap (10 * POLL_INTERVAL) 2000 d in
  let added := insertedRows d (snd r) in
  fst r = true /\
  timeseries_data (snd r) = timeseries_data d ++ added /\
  length added = 9%nat /\
  map timestamp added
  = [5000; 10000; 15000; 20000; 25000; 30000; 35000; 40000; 45000] /\
  lifetimes added = [1100; 1200; 1300; 1400; 1500; 1600; 1700; 1800; 1900] /\
  increasing (1000 :: lifetimes added ++ [2000]) /\
  sumZ (deltas (1000 :: lifetimes added ++ [2000])) = 1000.
Proof.
  intros Hlast r added.
  assert (Hr : r = (true,
                    {| bandwidth_history := bandwidth_history d;
                       timeseries_data :=
                         timeseries_data d ++
                         interpolatedRows 0 1000 100 10 |})).
  { subst r. unfold handleDataGap. rewrite Hlast. reflexivity. }
  assert (Hadded : added = interpolatedRows 0 1000 100 10).
  { subst added. rewrite Hr. unfold insertedRows. cbn [snd timeseries_data].
    apply drop_app_length. }
  rewrite Hadded, Hr. cbn [fst snd timeseries_data].
  split; [reflexivity|]. split; [reflexivity|].
  vm_compute. repeat split; reflexivity.
Qed.

(** Witness of C3: the table that holds the one real row. *)
Lemma gap_interpolation_example_witness :
  lastEntry gapDatabase = Some (0, 1000) /\
  length (insertedRows gapDatabase
            (snd (handleDataGap (10 * POLL_INTERVAL) 2000 gapDatabase))) = 9%nat.
Proof.
  split; [reflexivity|].
  apply (gap_interpolation_example gapDatabase). reflexivity.
Defined.

(** C8 as stated fails: a window that holds interpolated rows and a real
    row whose aggregate is negative (a counter field written "-5") has
    minimum -5, and the usage 15 is not the window's maximum 10. *)
Lemma interpolated_window_with_negative_row :
  let d := db (gapRun "-5" "10") in
  let cutoffTime := 1700000050000 - 5 * 60 * 1000 in
  rowsSince cutoffTime d !! 1%nat = Some (interpolatedRecord 1700000005000 1100) /\
  start_bytes cutoffTime d = Some (-5) /\
  end_bytes cutoffTime d = Some 10 /\
  usageSince cutoffTime d = Some 15 /\
  usageSince cutoffTime d <> end_bytes cutoffTime d.
Proof.
  vm_compute. repeat split; try reflexivity. discriminate.
Qed.

(** C8, amended.  Every row inserted by gap interpolation has
    [total_rx_bytes = 0], [total_tx_bytes = 0], [session_duration = 0] and
    NULL signal columns; consequently, for every usage window that contains
    such a row and whose rows all have a non-negative aggregate, the minimum
    of [total_rx_bytes + total_tx_bytes] over the window is 0 and the
    windowed usage equals the window's maximum aggregate. *)
Theorem interpolated_rows_zero_the_window_minimum :
  (forall (currentTimestamp lifetimeBytes : Z) (d : Database),
      let after := snd (handleDataGap currentTimestamp lifetimeBytes d) in
      timeseries_data after = timeseries_data d ++ insertedRows d after /\
      Forall zeroSession (insertedRows d after)) /\
  (forall (cutoffTime : Z) (d : Database) (r : TimeSeriesRecord),
      r ∈ rowsSince cutoffTime d ->
      zeroSession r ->
      (forall r', r' ∈ rowsSince cutoffTime d -> 0 <= aggregateBytes r') ->
      start_bytes cutoffTime d = Some 0 /\
      usageSince cutoffTime d = end_bytes cutoffTime d).
Proof.
  split.
  - intros t l d after.
    destruct (handleDataGap_appends t l d) as (_ & H1 & H2). auto.
  - intros cutoffTime d r Hr (Hrx & Htx & _) Hnonneg.
    assert (Hne : rowsSince cutoffTime d <> []).
    { intros E. rewrite E in Hr. now apply elem_of_nil in Hr. }
    destruct (usageSince_nonempty cutoffTime d Hne)
      as (lo & hi & Hlo & Hhi & Hbounds & Hstart & Hend & Husage).
    assert (Hzero : aggregateBytes lo = 0).
    { pose proof (Hnonneg lo Hlo). pose proof (proj1 (Hbounds r Hr)) as Hle.
      unfold aggregateBytes in Hle at 2. rewrite Hrx, Htx in Hle. lia. }
    rewrite Hstart, Husage, Hend, Hzero. split; [reflexivity|].
    f_equal. lia.
Qed.

(** Witness of C8: the run with a gap of ten poll intervals and counters
    1000 and 1600; the 5-minute usage is 1600, the largest aggregate. *)
Lemma interpolated_rows_zero_the_window_minimum_witness :
  let d := db (gapRun "1000" "1600") in
  let cutoffTime := 1700000050000 - 5 * 60 * 1000 in
  start_bytes cutoffTime d = Some 0 /\
  usageSince cutoffTime d = end_bytes cutoffTime d.
Proof.
  intros d cutoffTime.
  apply (proj2 interpolated_rows_zero_the_window_minimum cutoffTime d
           (interpolatedRecord 1700000005000 1100)).
  - apply elem_of_rowsSince. split; [vm_compute; congruence|].
    vm_compute. apply list_elem_of_further, list_elem_of_here.
  - apply interpolatedRecord_zeroSession.
  - intros r' Hr'. apply elem_of_rowsSince in Hr' as [_ Hr'].
    revert r' Hr'. apply Forall_forall. vm_compute.
    repeat constructor; discriminate.
Defined.

(** C4 as stated fails: with a single row in the window (fewer than 2) the
    aggregator returns 0, not [null]. *)
Lemma one_row_window_is_not_null :
  let cutoffTime := 2000 - 5 * 60 * 1000 in
  length (rowsSince cutoffTime oneRowDatabase) = 1%nat /\
  usageSince cutoffTime oneRowDatabase = Some 0 /\
  usageSince cutoffTime oneRowDatabase <> None /\
  calculateUsageOverTime 2000 oneRowDatabase !! 0%nat = Some ("5m", Some 0).
Proof.
  vm_compute. repeat split; try reflexivity. discriminate.
Qed.

(** C4, amended.  For every window w of [calculateUsageOverTime], the
    result is [null] when no row has its timestamp within the last w, and
    otherwise (one row is enough) the non-null difference between the
    largest and the smallest aggregate [total_rx_bytes + total_tx_bytes]
    over the rows of the window. *)
Theorem usage_window_null_iff_no_row
    (now : Z) (d : Database) (label : string) (w : Z) :
  (label, w) ∈ periods ->
  let rows := rowsSince (now - w) d in
  (label, usageSince (now - w) d) ∈ calculateUsageOverTime now d /\
  (rows = [] -> usageSince (now - w) d = None) /\
  (rows <> [] ->
   exists lo hi : TimeSeriesRecord,
     lo ∈ rows /\ hi ∈ rows /\
     (forall r, r ∈ rows -> aggregateBytes lo <= aggregateBytes r <= aggregateBytes hi) /\
     usageSince (now - w) d = Some (aggregateBytes hi - aggregateBytes lo)).
Proof.
  intros Hw rows. split; [|split].
  - unfold calculateUsageOverTime. apply list_elem_of_fmap.
    exists (label, w). split; [reflexivity|exact Hw].
  - apply usageSince_empty.
  - intros Hne.
    destruct (usageSince_nonempty (now - w) d Hne)
      as (lo & hi & Hlo & Hhi & Hb & _ & _ & Hu).
    exists lo, hi. auto.
Qed.

(** Witness of C4: the 5-minute window over the table with one row. *)
Lemma usage_window_null_iff_no_row_witness :
  ("5m", 5 * 60 * 1000) ∈ periods /\
  ("5m", usageSince (2000 - 5 * 60 * 1000) oneRowDatabase)
    ∈ calculateUsageOverTime 2000 oneRowDatabase.
Proof.
  assert (H : ("5m", 5 * 60 * 1000) ∈ periods) by apply list_elem_of_here.
  split; [exact H|].
  apply (usage_window_null_iff_no_row 2000 oneRowDatabase "5m" (5 * 60 * 1000) H).
Defined.








(** * Further properties of the engine *)

(** ** The order of the queries *)

Section Order.

Context {A : Type} (key : A -> Z).

(** [insert_desc] keeps a list in descending order of keys. *)
Lemma insert_desc_sorted (x : A) (l : list A) :
  StronglySorted (fun a b => key b <= key a) l ->
  StronglySorted (fun a b => key b <= key a) (insert_desc key x l).
Proof.
  induction 1 as [|y l Hs IH Hall]; simpl.
  - repeat constructor.
  - destruct (key x <? key y) eqn:E.
    + apply Z.ltb_lt in E. constructor; [exact IH|].
      apply Forall_forall. intros z Hz.
      apply elem_of_insert_desc in Hz as [-> | Hz]; [lia|].
      rewrite Forall_forall in Hall. now apply Hall.
    + apply Z.ltb_ge in E. constructor; [now constructor|].
      constructor; [exact E|].
      eapply Forall_impl; [exact Hall|]. cbn. intros; lia.
Qed.

Lemma order_by_desc_sorted (l : list A) :
  StronglySorted (fun a b => key b <= key a) (order_by_desc key l).
Proof.
  induction l as [|x l IH]; simpl; [constructor|].
  now apply insert_desc_sorted.
Qed.


(** A row appended with a key above all others comes first in the order. *)
Lemma order_by_desc_snoc_newest (l : list A) (x : A) :
  (forall y, y ∈ l -> key y < key x) ->
  order_by_desc key (l ++ [x]) = x :: order_by_desc key l.
Proof.
  induction l as [|y l IH]; intros Hnew; [reflexivity|].
  cbn [app order_by_desc]. rewrite IH.
  - cbn [insert_desc].
    replace (key y <? key x) with true; [reflexivity|].
    symmetry. apply Z.ltb_lt, Hnew, list_elem_of_here.
  - intros z Hz. apply Hnew. now apply list_elem_of_further.
Qed.

End Order.

(** ** Gap interpolation, in general *)

Section GapGeneral.

Lemma numIntervals_div (a : Z) :
  Qfloor (inject_Z a / inject_Z POLL_INTERVAL) = a / POLL_INTERVAL.
Proof.
  unfold POLL_INTERVAL, Qdiv, Qmult, Qinv, inject_Z, Qfloor. simpl.
  f_equal; lia.
Qed.

Lemma handleDataGap_outcome (currentTimestamp lifetimeBytes : Z) (d : Database) :
  (fst (handleDataGap currentTimestamp lifetimeBytes d) = true ->
   exists t0 l0 : Z,
     lastEntry d = Some (t0, l0) /\
     3 * POLL_INTERVAL < currentTimestamp - t0 /\
     l0 < lifetimeBytes /\
     (currentTimestamp - t0) / POLL_INTERVAL < 17280) /\
  (fst (handleDataGap currentTimestamp lifetimeBytes d) = false ->
   snd (handleDataGap currentTimestamp lifetimeBytes d) = d).
Proof.
  unfold handleDataGap.
  destruct (lastEntry d) as [[t0 l0]|]; cbn zeta beta;
    [|split; [discriminate|reflexivity]].
  rewrite numIntervals_div.
  change (24 * 60 * 60 * 1000 / POLL_INTERVAL) with 17280.
  destruct (POLL_INTERVAL * 3 <? currentTimestamp - t0) eqn:Egap;
    destruct (l0 <? lifetimeBytes) eqn:Elife; cbn [andb];
    try (split; [discriminate|reflexivity]).
  apply Z.ltb_lt in Egap, Elife.
  assert (Hpos : 0 < (currentTimestamp - t0) / POLL_INTERVAL).
  { apply Z.div_str_pos. unfold POLL_INTERVAL in *. lia. }
  replace (0 <? (currentTimestamp - t0) / POLL_INTERVAL) with true
    by (symmetry; apply Z.ltb_lt; lia).
  replace (0 <? lifetimeBytes - l0) with true by (symmetry; apply Z.ltb_lt; lia).
  destruct ((currentTimestamp - t0) / POLL_INTERVAL <? 17280) eqn:Eday;
    cbn [andb fst snd].
  - apply Z.ltb_lt in Eday. split; [|discriminate].
    intros _. exists t0, l0. repeat split; lia.
  - split; [discriminate|reflexivity].
Qed.

(** X1.  [handleDataGap] interpolates exactly when a row with a lifetime
    value exists, the time since the latest such row exceeds three poll
    intervals, the lifetime counter went up, and the gap spans fewer than
    17280 poll intervals (24 hours); in every other case (no earlier row,
    short gap, lifetime not above the stored one, gap of a day or more) it
    returns [false] and leaves the tables as they were. *)
Theorem handleDataGap_fires_iff (currentTimestamp lifetimeBytes : Z) (d : Database) :
  (fst (handleDataGap currentTimestamp lifetimeBytes d) = true <->
   exists t0 l0 : Z,
     lastEntry d = Some (t0, l0) /\
     3 * POLL_INTERVAL < currentTimestamp - t0 /\
     l0 < lifetimeBytes /\
     (currentTimestamp - t0) / POLL_INTERVAL < 17280) /\
  (fst (handleDataGap currentTimestamp lifetimeBytes d) = false ->
   snd (handleDataGap currentTimestamp lifetimeBytes d) = d).
Proof.
  destruct (handleDataGap_outcome currentTimestamp lifetimeBytes d) as (Htrue & Hfalse).
  split; [|exact Hfalse]. split; [exact Htrue|].
  intros (t0 & l0 & Hlast & Hgap & Hlife & Hday).
  apply (handleDataGap_count currentTimestamp lifetimeBytes t0 l0 d Hlast);
    [lia|exact Hlife|exact Hday].
Qed.






End GapGeneral.

(** ** Polls and the tables *)

Section PollsAndTables.









(** One call of [displayStats] only appends to the two tables. *)
Lemma displayStats_append_only (data : jsval) (timestamp0 savedAt : Z) (st : PollerState) :
  let st' := stateOf (displayStats data timestamp0 savedAt st) in
  timeseries_data (db st) `prefix_of` timeseries_data (db st') /\
  bandwidth_history (db st) `prefix_of` bandwidth_history (db st').
Proof.
  assert (Hgap : forall o : option Z,
             let d1 := match o with
                       | Some l => snd (handleDataGap timestamp0 l (db st))
                       | None => db st
                       end in
             timeseries_data (db st) `prefix_of` timeseries_data d1 /\
             bandwidth_history d1 = bandwidth_history (db st)).
  { intros [l|]; cbn zeta; [|split; reflexivity].
    destruct (handleDataGap_appends timestamp0 l (db st)) as (Hb & Ht & _).
    split; [|exact Hb]. rewrite Ht. now apply prefix_app_r. }
  specialize (Hgap (totalLifetimeBytes_of data)). cbn zeta in Hgap.
  destruct Hgap as (Hts & Hbw).
  unfold displayStats. cbn zeta.
  destruct (aggregateTotals (previousStats st)) as [prevDownload prevUpload].
  repeat match goal with
         | |- context [if ?c then _ else _] =>
             lazymatch c with
             | context [if _ then _ else _] => fail
             | _ => destruct c
             end
         end;
    cbn [stateOf db with_db saveBandwidthData saveTimeseriesData
         timeseries_data bandwidth_history];
    rewrite ?Hbw;
    (split; [first [reflexivity | exact Hts | now apply prefix_app_r]
            | first [reflexivity | now apply prefix_app_r]]).
Qed.

Lemma refresh_append_only (stats : jsval) (timestamp0 savedAt : Z) (st : PollerState) :
  let st' := refresh stats timestamp0 savedAt st in
  timeseries_data (db st) `prefix_of` timeseries_data (db st') /\
  bandwidth_history (db st) `prefix_of` bandwidth_history (db st').
Proof.
  unfold refresh. cbn zeta. destruct (truthy stats); [|split; reflexivity].
  pose proof (displayStats_append_only stats timestamp0 savedAt st) as H.
  cbn zeta in H. destruct (displayStats stats timestamp0 savedAt st); exact H.
Qed.

(** X4.  Polling is append-only: whatever the polls return, every row that
    was in [timeseries_data] or in [bandwidth_history] before a run of
    polls is still there afterwards, unchanged and at the same position;
    polls only add rows at the end. *)
Theorem polling_is_append_only (polls : list Poll) (st : PollerState) :
  timeseries_data (db st) `prefix_of` timeseries_data (db (runPolls polls st)) /\
  bandwidth_history (db st) `prefix_of` bandwidth_history (db (runPolls polls st)).
Proof.
  induction polls as [|p polls IH] using rev_ind; [split; reflexivity|].
  rewrite runPolls_snoc. destruct IH as (IH1 & IH2).
  destruct (refresh_append_only (poll_stats p) (poll_timestamp p) (poll_savedAt p)
              (runPolls polls st)) as (H1 & H2).
  split; etransitivity; eassumption.
Qed.





(** X6.  A poll made while [previousStats] is unset (the first poll of a
    run, or any poll before a fetch has succeeded) records no bandwidth
    sample: the in-memory history and the table [bandwidth_history] stay as
    they were, whatever the snapshot; only the time series can grow. *)
Theorem poll_without_previous_records_no_sample
    (stats : jsval) (timestamp0 savedAt : Z) (st : PollerState) :
  truthy (previousStats st) = false ->
  let st' := refresh stats timestamp0 savedAt st in
  bandwidthHistory st' = bandwidthHistory st /\
  bandwidth_history (db st') = bandwidth_history (db st).
Proof.
  intros Hp.
  assert (Hgap : forall o : option Z,
             bandwidth_history
               (match o with
                | Some l => snd (handleDataGap timestamp0 l (db st))
                | None => db st
                end) = bandwidth_history (db st)).
  { intros [l|]; [|reflexivity].
    now destruct (handleDataGap_appends timestamp0 l (db st)) as (-> & _). }
  specialize (Hgap (totalLifetimeBytes_of stats)).
  unfold refresh, displayStats. rewrite Hp. cbn zeta.
  repeat match goal with
         | |- context [if ?c then _ else _] =>
             lazymatch c with
             | context [if _ then _ else _] => fail
             | _ => destruct c
             end
         end;
    cbn [with_previousStats with_db bandwidthHistory db saveTimeseriesData
         bandwidth_history];
    auto.
Qed.

(** Witness of X6: the first poll after startup. *)
Lemma poll_without_previous_records_no_sample_witness :
  truthy (previousStats (startup 1700000000000 emptyDatabase)) = false /\
  bandwidthHistory (runPolls [firstPoll] (startup 1700000000000 emptyDatabase))
  = bandwidthHistory (startup 1700000000000 emptyDatabase).
Proof.
  split; [reflexivity|].
  apply (poll_without_previous_records_no_sample (poll_stats firstPoll)
           (poll_timestamp firstPoll) (poll_savedAt firstPoll)
           (startup 1700000000000 emptyDatabase)).
  reflexivity.
Defined.

End PollsAndTables.

(** ** Usage windows, in general *)

Section UsageGeneral.

Lemma rowsSince_mono (c1 c2 : Z) (d : Database) (r : TimeSeriesRecord) :
  c1 <= c2 -> r ∈ rowsSince c2 d -> r ∈ rowsSince c1 d.
Proof.
  intros Hc. rewrite !elem_of_rowsSince. intros [? ?]. split; [lia|assumption].
Qed.

(** X7.  Windowed usage is never negative, and a longer window never
    reports less than a shorter one: when the window starting at the later
    cutoff has a result, the window starting at the earlier cutoff has one
    too, at least as large. *)
Theorem usage_grows_with_window (cutoff1 cutoff2 : Z) (d : Database) (a : Z) :
  cutoff1 <= cutoff2 ->
  usageSince cutoff2 d = Some a ->
  0 <= a /\ exists b : Z, usageSince cutoff1 d = Some b /\ a <= b.
Proof.
  intros Hc Ha.
  assert (Hne2 : rowsSince cutoff2 d <> []).
  { intros E. rewrite (usageSince_empty _ _ E) in Ha. discriminate. }
  destruct (usageSince_nonempty cutoff2 d Hne2)
    as (lo2 & hi2 & Hlo2 & Hhi2 & Hb2 & _ & _ & Hu2).
  assert (Hne1 : rowsSince cutoff1 d <> []).
  { intros E. apply (rowsSince_mono cutoff1 cutoff2 d lo2 Hc) in Hlo2.
    rewrite E in Hlo2. now apply elem_of_nil in Hlo2. }
  destruct (usageSince_nonempty cutoff1 d Hne1)
    as (lo1 & hi1 & Hlo1 & Hhi1 & Hb1 & _ & _ & Hu1).
  rewrite Hu2 in Ha. injection Ha as <-.
  pose proof (Hb2 lo2 Hlo2). pose proof (Hb2 hi2 Hhi2).
  pose proof (Hb1 lo2 (rowsSince_mono _ _ _ _ Hc Hlo2)).
  pose proof (Hb1 hi2 (rowsSince_mono _ _ _ _ Hc Hhi2)).
  split; [lia|]. exists (aggregateBytes hi1 - aggregateBytes lo1).
  split; [exact Hu1|lia].
Qed.

(** Witness of X7: the 5-minute and 24-hour windows over the run with a
    gap. *)
Lemma usage_grows_with_window_witness :
  usageSince (1700000050000 - 5 * 60 * 1000) (db (gapRun "1000" "1600")) = Some 1600 /\
  exists b : Z,
    usageSince (1700000050000 - 24 * 60 * 60 * 1000) (db (gapRun "1000" "1600")) = Some b /\
    1600 <= b.
Proof.
  assert (H : usageSince (1700000050000 - 5 * 60 * 1000) (db (gapRun "1000" "1600"))
              = Some 1600) by (vm_compute; reflexivity).
  split; [exact H|].
  apply (usage_grows_with_window (1700000050000 - 24 * 60 * 60 * 1000)
           (1700000050000 - 5 * 60 * 1000) (db (gapRun "1000" "1600")) 1600);
    [vm_compute; congruence | exact H].
Defined.

Lemma rowsSince_cleanOldData (cutoffTime daysToKeep now : Z) (d : Database) :
  now - daysToKeep * 24 * 60 * 60 * 1000 <= cutoffTime ->
  rowsSince cutoffTime (cleanOldData daysToKeep now d) = rowsSince cutoffTime d.
Proof.
  intros Hc. unfold rowsSince, cleanOldData. cbn [timeseries_data].
  induction (timeseries_data d) as [|r rows IH]; [reflexivity|].
  rewrite !filter_cons.
  destruct (decide (now - daysToKeep * 24 * 60 * 60 * 1000 <= timestamp r)) as [Hk|Hk].
  - rewrite filter_cons. destruct (decide (cutoffTime <= timestamp r));
      [f_equal|]; exact IH.
  - destruct (decide (cutoffTime <= timestamp r)) as [Hin|Hin]; [lia|exact IH].
Qed.

(** X8.  The retention sweep does not change the usage display: after
    [cleanOldData] with a horizon of at least one day, every window of
    [calculateUsageOverTime], evaluated at the time of the sweep or later,
    gives the result it gave before the sweep. *)
Theorem cleanOldData_keeps_usage (daysToKeep cleanedAt now : Z) (d : Database) :
  1 <= daysToKeep -> cleanedAt <= now ->
  calculateUsageOverTime now (cleanOldData daysToKeep cleanedAt d)
  = calculateUsageOverTime now d.
Proof.
  intros Hdays Hnow. unfold calculateUsageOverTime.
  apply map_ext_in. intros [label w] Hin. cbn [fst snd]. f_equal.
  assert (Hw : w <= 24 * 60 * 60 * 1000).
  { unfold periods in Hin. cbn in Hin.
    repeat (destruct Hin as [[= <- <-]|Hin]; [lia|]). destruct Hin. }
  unfold usageSince, start_bytes, end_bytes.
  rewrite rowsSince_cleanOldData by nia. reflexivity.
Qed.

(** Witness of X8: the sweep of [main], seven days, on the run with a
    gap. *)
Lemma cleanOldData_keeps_usage_witness :
  1 <= 7 /\
  calculateUsageOverTime 1700000050000
    (cleanOldData 7 1700000050000 (db (gapRun "1000" "1600")))
  = calculateUsageOverTime 1700000050000 (db (gapRun "1000" "1600")).
Proof.
  split; [lia|].
  apply (cleanOldData_keeps_usage 7 1700000050000 1700000050000); lia.
Defined.

End UsageGeneral.

(** ** Speeds recomputed from the time series, in general *)

Section SpeedsGeneral.

Lemma StronglySorted_take {A : Type} (R : A -> A -> Prop) (n : nat) (l : list A) :
  StronglySorted R l -> StronglySorted R (take n l).
Proof.
  intros Hs. revert n. induction Hs as [|x l Hs IH Hall]; intros [|n]; cbn.
  - constructor.
  - constructor.
  - constructor.
  - constructor; [apply IH|apply Forall_take, Hall].
Qed.

Lemma StronglySorted_reverse {A : Type} (R : A -> A -> Prop) (l : list A) :
  StronglySorted R l -> StronglySorted (flip R) (reverse l).
Proof.
  induction 1 as [|x l Hs IH Hall]; [constructor|].
  rewrite reverse_cons. apply StronglySorted_app_2; [|exact IH|repeat constructor].
  intros a b Ha Hb. apply list_elem_of_singleton in Hb as ->.
  rewrite elem_of_reverse in Ha. rewrite Forall_forall in Hall.
  unfold flip. now apply Hall.
Qed.

(** The rows the recomputation walks through, oldest first. *)
Lemma recomputation_rows_sorted (limit : nat) (d : Database) :
  StronglySorted (fun a b => timestamp a <= timestamp b)
    (reverse (take (limit + 1) (order_by_desc timestamp (timeseries_data d)))).
Proof.
  apply (StronglySorted_reverse (fun a b => timestamp b <= timestamp a)).
  apply StronglySorted_take, order_by_desc_sorted.
Qed.

(** On rows in time order the samples carry strictly increasing
    timestamps, each the timestamp of a row after the first. *)
Lemma speedsBetween_timestamps (rows : list TimeSeriesRecord) :
  StronglySorted (fun a b => timestamp a <= timestamp b) rows ->
  StronglySorted Z.lt (series_timestamps (speedsBetween rows)) /\
  (forall t, t ∈ series_timestamps (speedsBetween rows) ->
             exists r, r ∈ rows /\ timestamp r = t) /\
  (forall first, head rows = Some first ->
                 Forall (fun t => timestamp first < t)
                   (series_timestamps (speedsBetween rows))).
Proof.
  induction 1 as [|previous rest Hs IH Hall]; [cbn; repeat split|].
  - constructor.
  - intros t Ht. now apply elem_of_nil in Ht.
  - discriminate.
  - destruct rest as [|current rest'].
    { cbn. repeat split; [constructor| |intros; constructor].
      intros t Ht. now apply elem_of_nil in Ht. }
    destruct IH as (IHs & IHin & IHhd).
    specialize (IHhd current eq_refl).
    apply Forall_cons in Hall as (Hpc & Hall').
    change (speedsBetween (previous :: current :: rest')) with
      (let later := speedsBetween (current :: rest') in
       let timeDiffSec := (inject_Z (timestamp current - timestamp previous) / 1000)%Q in
       let rxDiff := total_rx_bytes current - total_rx_bytes previous in
       let txDiff := total_tx_bytes current - total_tx_bytes previous in
       if (0 <=? rxDiff) && (0 <=? txDiff) && Qpositive timeDiffSec then
         {| series_download := (inject_Z rxDiff / timeDiffSec)%Q :: series_download later;
            series_upload := (inject_Z txDiff / timeDiffSec)%Q :: series_upload later;
            series_timestamps := timestamp current :: series_timestamps later |}
       else later).
    cbn zeta.
    assert (Hlater : Forall (fun t => timestamp previous < t)
                       (series_timestamps (speedsBetween (current :: rest')))).
    { eapply Forall_impl; [exact IHhd|]. cbn. intros; lia. }
    destruct ((0 <=? _) && (0 <=? _) && Qpositive _) eqn:E.
    + apply andb_true_iff in E as [_ Hpos]. apply Qpositive_spec in Hpos.
      assert (Hlt : timestamp previous < timestamp current).
      { destruct (Z.lt_ge_cases (timestamp previous) (timestamp current)) as [?|Hge];
          [assumption|exfalso].
        revert Hpos. unfold Qlt, Qdiv, Qmult, Qinv, inject_Z. simpl.
        rewrite Z.mul_1_r. lia. }
      cbn [series_timestamps]. split; [|split].
      * constructor; [exact IHs|exact IHhd].
      * intros t Ht. apply elem_of_cons in Ht as [-> | Ht].
        -- exists current. split; [|reflexivity].
           apply list_elem_of_further, list_elem_of_here.
        -- destruct (IHin t Ht) as (r & Hr & <-). exists r.
           split; [now apply list_elem_of_further|reflexivity].
      * intros first [= <-]. constructor; [exact Hlt|exact Hlater].
    + split; [exact IHs|]. split.
      * intros t Ht. destruct (IHin t Ht) as (r & Hr & <-). exists r.
        split; [now apply list_elem_of_further|reflexivity].
      * intros first [= <-]. exact Hlater.
Qed.

(** X9.  [calculateSpeedsFromTimeseries(limit)] returns three lists of one
    length, at most [limit] long; every speed is non-negative; the
    timestamps increase strictly and each is the timestamp of a stored row;
    and a table with fewer than two rows gives three empty lists. *)
Theorem calculateSpeedsFromTimeseries_shape (limit : nat) (d : Database) :
  let s := calculateSpeedsFromTimeseries limit d in
  (length (series_download s) <= limit)%nat /\
  length (series_upload s) = length (series_download s) /\
  length (series_timestamps s) = length (series_download s) /\
  Forall (Qle 0) (series_download s) /\
  Forall (Qle 0) (series_upload s) /\
  StronglySorted Z.lt (series_timestamps s) /\
  (forall t, t ∈ series_timestamps s ->
             exists r, r ∈ timeseries_data d /\ timestamp r = t) /\
  ((length (timeseries_data d) < 2)%nat -> s = emptySeries).
Proof.
  unfold calculateSpeedsFromTimeseries.
  set (rows := take (limit + 1) (order_by_desc timestamp (timeseries_data d))).
  assert (Hrows : (length rows <= limit + 1)%nat).
  { subst rows. rewrite length_take. lia. }
  assert (Hlen : length rows = Nat.min (limit + 1) (length (timeseries_data d))).
  { subst rows. now rewrite length_take, length_order_by_desc. }
  destruct (length rows <? 2)%nat eqn:E; cbn zeta.
  - cbn. repeat split; auto; try lia; try constructor.
    intros t Ht. now apply elem_of_nil in Ht.
  - apply Nat.ltb_ge in E.
    pose proof (speedsBetween_spec (reverse rows)) as (Hd & Hu & Hlu & Hlt & Hl).
    rewrite length_reverse in Hl.
    destruct (speedsBetween_timestamps (reverse rows)
                (recomputation_rows_sorted limit d)) as (Hs & Hin & _).
    repeat split; auto; try lia.
    intros t Ht. destruct (Hin t Ht) as (r & Hr & <-). exists r.
    split; [|reflexivity].
    rewrite elem_of_reverse in Hr. subst rows.
    apply subseteq_take in Hr.
    now apply (elem_of_order_by_desc timestamp r (timeseries_data d)).
Qed.

(** X10.  Between two adjacent rows the recomputation drops the interval,
    in both directions, exactly when one of the two stored counters went
    down or the later row is not stamped strictly after the earlier one. *)
Theorem speedsBetween_skips_iff (prev curr : TimeSeriesRecord) :
  speedsBetween [prev; curr] = emptySeries <->
  total_rx_bytes curr < total_rx_bytes prev \/
  total_tx_bytes curr < total_tx_bytes prev \/
  timestamp curr <= timestamp prev.
Proof.
  cbn [speedsBetween].
  assert (Hpos : Qpositive (inject_Z (timestamp curr - timestamp prev) / 1000) = true
                 <-> timestamp prev < timestamp curr).
  { rewrite Qpositive_spec. unfold Qlt, Qdiv, Qmult, Qinv, inject_Z. simpl.
    rewrite Z.mul_1_r. lia. }
  destruct (0 <=? total_rx_bytes curr - total_rx_bytes prev) eqn:Erx;
    destruct (0 <=? total_tx_bytes curr - total_tx_bytes prev) eqn:Etx;
    destruct (Qpositive (inject_Z (timestamp curr - timestamp prev) / 1000)) eqn:Et;
    cbn [andb];
    try apply Z.leb_le in Erx; try apply Z.leb_gt in Erx;
    try apply Z.leb_le in Etx; try apply Z.leb_gt in Etx;
    try (split; [discriminate|]; intros [?|[?|?]]; [lia|lia|];
         assert (timestamp prev < timestamp curr) by (now apply Hpos); lia);
    (split; [intros _|reflexivity]);
    try (left; lia); try (right; left; lia).
  right. right.
  destruct (Z.lt_ge_cases (timestamp prev) (timestamp curr)) as [Hlt|Hge]; [|lia].
  apply Hpos in Hlt. congruence.
Qed.

End SpeedsGeneral.

(** ** The legacy table of speeds *)

Section LegacyTable.

(** X11.  A sample saved with a timestamp later than every stored one comes
    back as the last element of what [loadBandwidthHistory] returns, after
    the n - 1 most recent samples stored before it. *)
Theorem saved_sample_is_loaded_last
    (n : nat) (now : Z) (downloadSpeed uploadSpeed : Q) (d : Database) :
  (forall r, r ∈ bandwidth_history d -> bw_timestamp r < now) ->
  let before := loadBandwidthHistory n d in
  let after := loadBandwidthHistory (S n) (saveBandwidthData now downloadSpeed uploadSpeed d) in
  fst after = fst before ++ [downloadSpeed] /\
  snd after = snd before ++ [uploadSpeed].
Proof.
  intros Hnew. unfold loadBandwidthHistory, saveBandwidthData.
  cbn [bandwidth_history fst snd].
  rewrite order_by_desc_snoc_newest by (intros y Hy; cbn; now apply Hnew).
  cbn [take]. rewrite reverse_cons, !map_app. split; reflexivity.
Qed.

(** Witness of X11: the sample of the second poll, saved after the sample
    of the poll with the reset snapshot. *)
Lemma saved_sample_is_loaded_last_witness :
  let d := db (refresh resetSnapshot 1700000005000 1700000005001 beforeReset) in
  fst (loadBandwidthHistory 66 (saveBandwidthData 1700000010001 100 20 d))
  = fst (loadBandwidthHistory 65 d) ++ [100%Q].
Proof.
  intros d.
  apply (saved_sample_is_loaded_last 65 1700000010001 100 20 d).
  intros r Hr. vm_compute in Hr.
  apply list_elem_of_singleton in Hr as ->. reflexivity.
Defined.

End LegacyTable.

(** ** Activity of the offload sources *)

Section Activity.

Lemma flag_one (c : jsval) : flag c = Some 1 <-> truthy c = true.
Proof. unfold flag. destruct (truthy c); split; congruence. Qed.

Lemma isOffloadActive_flags (data : jsval) :
  truthy (isOffloadActive data) = true <->
  flag (wifiOffloadActive (normalize data)) = Some 1 \/
  flag (ethernetOffloadActive (normalize data)) = Some 1.
Proof.
  rewrite !flag_one. unfold isOffloadActive, js_or.
  cbn [normalize wifiOffloadActive ethernetOffloadActive].
  destruct (truthy (js_and (wifiOffload_of data) _)) eqn:E;
    rewrite ?E; intuition congruence.
Qed.

(** X12.  The stored flag [wifi_offload_active] is 1 exactly when the WiFi
    offload object is present, enabled, has status "On" and a non-empty
    SSID, and [ethernet_offload_active] is 1 exactly when the Ethernet
    offload object is present, enabled, on and has an address other than
    "0.0.0.0"; the warning of the bandwidth panel is shown exactly when one
    of the two flags is 1; and SSID, RSSI and bars are stored as NULL
    whenever WiFi offload is not active. *)
Theorem offload_activity_flags (data : jsval) :
  let n := normalize data in
  let wifi := wifiOffload_of data in
  let ethernet := ethOffload_of data in
  (flag (wifiOffloadActive n) = Some 1 <->
   truthy wifi = true /\ truthy (get wifi "enabled") = true /\
   get wifi "status" = JStr "On" /\ truthy (get wifi "connectionSsid") = true) /\
  (flag (ethernetOffloadActive n) = Some 1 <->
   truthy ethernet = true /\ truthy (get ethernet "enabled") = true /\
   truthy (get ethernet "on") = true /\
   truthy (get ethernet "ipv4Addr") = true /\
   get ethernet "ipv4Addr" <> JStr "0.0.0.0") /\
  (truthy (isOffloadActive data) = true <->
   flag (wifiOffloadActive n) = Some 1 \/ flag (ethernetOffloadActive n) = Some 1) /\
  (flag (wifiOffloadActive n) = Some 0 ->
   wifiOffloadSsid n = JNull /\ wifiOffloadRssi n = JNull /\ wifiOffloadBars n = JNull).
Proof.
  cbn zeta.
  assert (Hstatus : forall v, strict_eq_str v "On" = true <-> v = JStr "On").
  { intros v. destruct v; cbn; try (split; [discriminate|discriminate]).
    rewrite String.eqb_eq. split; [now intros ->|now intros [= ->]]. }
  assert (Hip : forall v, strict_eq_str v "0.0.0.0" = false <-> v <> JStr "0.0.0.0").
  { intros v. destruct v; cbn; try (split; [discriminate|reflexivity]).
    rewrite String.eqb_neq. split; [intros H [= ->]; now apply H|intros H ->; now apply H]. }
  assert (Hwifi :
    truthy (wifiOffloadActive (normalize data)) = true <->
    truthy (wifiOffload_of data) = true /\
    truthy (get (wifiOffload_of data) "enabled") = true /\
    get (wifiOffload_of data) "status" = JStr "On" /\
    truthy (get (wifiOffload_of data) "connectionSsid") = true).
  { cbn [normalize wifiOffloadActive]. rewrite !truthy_js_and, !andb_true_iff.
    rewrite <- Hstatus.
    destruct (strict_eq_str (get (wifiOffload_of data) "status") "On"); cbn;
      intuition congruence. }
  assert (Heth :
    truthy (ethernetOffloadActive (normalize data)) = true <->
    truthy (ethOffload_of data) = true /\
    truthy (get (ethOffload_of data) "enabled") = true /\
    truthy (get (ethOffload_of data) "on") = true /\
    truthy (get (ethOffload_of data) "ipv4Addr") = true /\
    get (ethOffload_of data) "ipv4Addr" <> JStr "0.0.0.0").
  { cbn [normalize ethernetOffloadActive]. rewrite !truthy_js_and, !andb_true_iff.
    rewrite <- Hip. cbn [truthy]. rewrite negb_true_iff. reflexivity. }
  rewrite !flag_one. split; [exact Hwifi|]. split; [exact Heth|]. split.
  - rewrite <- (flag_one (wifiOffloadActive _)), <- (flag_one (ethernetOffloadActive _)).
    apply isOffloadActive_flags.
  - unfold flag. destruct (truthy (wifiOffloadActive (normalize data))) eqn:E;
      [discriminate|]. intros _.
    cbn [normalize wifiOffloadSsid wifiOffloadRssi wifiOffloadBars].
    cbn [normalize wifiOffloadActive] in E. rewrite E. auto.
Qed.

End Activity.

(** ** The debug monitor *)

Section DebugMonitor.

(** X13.  On every snapshot on which the debug monitor gets to its totals,
    it computes the same aggregated totals as the main monitor.  Its warning
    about offload counters is shown exactly when Ethernet offload is active,
    or WiFi offload is active and reports a [dataTransferred] object;
    whenever it is shown, the main monitor shows its warning too (an active
    WiFi offload without [dataTransferred] warns in the main monitor
    only). *)
Theorem debug_monitor_agrees (data : jsval) :
  Debug.reachesTotals data = true ->
  let n := normalize data in
  Debug.totals data = aggregateTotals data /\
  (truthy (Debug.warning data) = true <->
   (flag (wifiOffloadActive n) = Some 1 /\
    truthy (get (wifiOffload_of data) "dataTransferred") = true) \/
   flag (ethernetOffloadActive n) = Some 1) /\
  (truthy (Debug.warning data) = true -> truthy (isOffloadActive data) = true).
Proof.
  intros _. cbn zeta. split; [reflexivity|].
  assert (H : truthy (Debug.warning data) = true <->
              (flag (wifiOffloadActive (normalize data)) = Some 1 /\
               truthy (get (wifiOffload_of data) "dataTransferred") = true) \/
              flag (ethernetOffloadActive (normalize data)) = Some 1).
  { rewrite !flag_one.
    unfold Debug.warning, Debug.wifiOffloadActive, Debug.ethOffloadActive.
    fold (wifiOffload_of data). fold (ethOffload_of data).
    cbn [normalize wifiOffloadActive ethernetOffloadActive].
    unfold js_or. rewrite !truthy_js_and.
    destruct (truthy (wifiOffload_of data)) eqn:Ew;
      destruct (truthy (get (wifiOffload_of data) "dataTransferred")) eqn:Ed;
      destruct (truthy (ethOffload_of data)) eqn:Ee;
      cbn [andb truthy];
      repeat match goal with
             | |- context [truthy (js_and ?a ?b)] =>
                 rewrite (truthy_js_and a b)
             | |- context [if ?c then _ else _] => destruct c eqn:?
             end; cbn [andb truthy] in *;
      intuition congruence. }
  split; [exact H|].
  intros Hw. apply H in Hw.
  apply isOffloadActive_flags. tauto.
Qed.

(** Witness of X13: the snapshot of the convention example, with the
    [wwanadv] object the debug monitor reads. *)
Lemma debug_monitor_agrees_witness :
  Debug.reachesTotals Debug.example = true /\
  Debug.totals Debug.example = (130, 60) /\
  aggregateTotals Debug.example = (130, 60).
Proof.
  destruct (debug_monitor_agrees Debug.example) as (Htotals & _);
    [vm_compute; reflexivity|].
  split; [vm_compute; reflexivity|].
  split; [|rewrite <- Htotals]; vm_compute; reflexivity.
Defined.

End DebugMonitor.

(** ** The schema migration *)

Section Migration.





End Migration.
(** ** The session cookie *)

Section SessionCookie.

Lemma prefix_empty (s : string) : String.prefix "" s = true.
Proof. now destruct s. Qed.

Lemma includes_semicolon_split_head (h : string) :
  Net.includes ";" (Net.split_head h) = false.
Proof.
  induction h as [|c rest IH]; [reflexivity|].
  cbn [Net.split_head]. destruct (Ascii.eqb c ";") eqn:Ec; [reflexivity|].
  cbn [Net.includes String.prefix]. rewrite IH.
  destruct (ascii_dec ";" c) as [<-|Hne]; [|reflexivity].
  now rewrite Ascii.eqb_refl in Ec.
Qed.

Lemma prefix_split_head (p h : string) :
  Net.includes ";" p = false ->
  String.prefix p h = true -> String.prefix p (Net.split_head h) = true.
Proof.
  revert h. induction p as [|a p IH]; intros h Hp Hh; [apply prefix_empty|].
  destruct h as [|c rest]; [discriminate|].
  cbn [String.prefix] in Hh. destruct (ascii_dec a c) as [<-|]; [|discriminate].
  cbn [Net.includes String.prefix] in Hp.
  apply orb_false_iff in Hp as (Hhead & Htail).
  cbn [Net.split_head]. destruct (Ascii.eqb a ";") eqn:Ea.
  - apply Ascii.eqb_eq in Ea. subst a.
    destruct (ascii_dec ";" ";") as [_|Hne]; [|now destruct Hne].
    now rewrite prefix_empty in Hhead.
  - cbn [String.prefix]. destruct (ascii_dec a a) as [_|Hne]; [|now destruct Hne].
    now apply IH.
Qed.

Lemma split_head_prefix (h : string) : String.prefix (Net.split_head h) h = true.
Proof.
  induction h as [|c rest IH]; [reflexivity|].
  cbn [Net.split_head]. destruct (Ascii.eqb c ";"); [apply prefix_empty|].
  cbn [String.prefix]. now destruct (ascii_dec c c) as [_|Hne]; [|destruct Hne].
Qed.

Lemma captureCookie_ok (headers : option (list string)) (v : jsval) :
  Net.cookieOk v -> Net.cookieOk (Net.captureCookie headers v).
Proof.
  intros Hv. unfold Net.captureCookie. destruct headers as [cookies|]; [|exact Hv].
  destruct (List.find _ cookies) as [h|] eqn:Hfind; [|exact Hv].
  apply List.find_some in Hfind as (_ & Hh). right.
  exists (Net.split_head h). split; [reflexivity|].
  split; [now apply prefix_split_head|apply includes_semicolon_split_head].
Qed.

(** X15.  The cookie kept from a response: when no [Set-Cookie] header
    starts with [sessionId=] (or there is no such header at all) the stored
    cookie is unchanged; otherwise it is replaced by the part before the
    first semicolon of the first header that starts with [sessionId=], which
    still starts with [sessionId=] and carries none of the attributes
    ([Path], [HttpOnly], ...) that follow the semicolon. *)
Theorem captured_cookie_is_bare_session_id (headers : option (list string))
    (sessionCookie : jsval) :
  let cookies := default [] headers in
  (Forall (fun c => String.prefix "sessionId=" c = false) cookies /\
   Net.captureCookie headers sessionCookie = sessionCookie) \/
  (exists (before : list string) (cookieHeader : string) (after : list string),
      cookies = before ++ cookieHeader :: after /\
      Forall (fun c => String.prefix "sessionId=" c = false) before /\
      String.prefix "sessionId=" cookieHeader = true /\
      Net.captureCookie headers sessionCookie = JStr (Net.split_head cookieHeader) /\
      String.prefix (Net.split_head cookieHeader) cookieHeader = true /\
      Net.isSessionId (Net.captureCookie headers sessionCookie)).
Proof.
  cbn zeta. destruct headers as [cookies|]; [|left; split; [constructor|reflexivity]].
  change (default [] (Some cookies)) with cookies. unfold Net.captureCookie.
  induction cookies as [|c cookies IH]; [left; split; [constructor|reflexivity]|].
  cbn [List.find]. destruct (String.prefix "sessionId=" c) eqn:Ec.
  - right. exists [], c, cookies. split; [reflexivity|]. split; [constructor|].
    split; [exact Ec|]. split; [reflexivity|]. split; [apply split_head_prefix|].
    exists (Net.split_head c). split; [reflexivity|].
    split; [now apply prefix_split_head|apply includes_semicolon_split_head].
  - destruct IH as [(Hall & Heq)|(before & h & after & Hc & Hall & Hh & Heq & Hpre & Hid)].
    + left. split; [now constructor|exact Heq].
    + right. exists (c :: before), h, after. split; [now rewrite Hc|].
      split; [now constructor|]. now repeat split.
Qed.

End SessionCookie.

(** ** Fetching the statistics *)

Section RouterSession.

Variable JSON_parse : string -> jsval + string.
Variable router : list Net.Request -> Net.Reply.

Local Abbreviation httpRequest := (Net.httpRequest router).
Local Abbreviation initSession := (Net.initSession router).
Local Abbreviation login := (Net.login JSON_parse router).
Local Abbreviation reAuthenticate := (Net.reAuthenticate JSON_parse router).
Local Abbreviation fetchStatsWith := (Net.fetchStatsWith JSON_parse router).
Local Abbreviation fetchStats := (Net.fetchStats JSON_parse router).
Local Abbreviation looksExpired := (Net.looksExpired JSON_parse).
Local Abbreviation runs := (Net.runs router).

Lemma runs_one (options : Net.Request) (s : Net.Session) :
  Net.cookie options = None \/ Net.cookie options = Some (Net.sessionCookie s) ->
  runs s [options] (snd (httpRequest options s)).
Proof. intros H. apply Net.runs_cons; [exact H|apply Net.runs_nil]. Qed.

Lemma runs_app (s s1 s2 : Net.Session) (new1 new2 : list Net.Request) :
  runs s new1 s1 -> runs s1 new2 s2 -> runs s (new1 ++ new2) s2.
Proof.
  induction 1 as [|s options new s' Hc _ IH]; intros H2; [exact H2|].
  cbn [app]. apply Net.runs_cons; [exact Hc|now apply IH].
Qed.

Lemma runs_requests (s s' : Net.Session) (new : list Net.Request) :
  runs s new s' ->
  Net.requests s' = Net.requests s ++ new /\ Net.PASSWORD s' = Net.PASSWORD s.
Proof.
  induction 1 as [s|s options new s' _ _ (IHr & IHp)].
  - now rewrite app_nil_r.
  - cbn [Net.httpRequest snd Net.requests Net.PASSWORD] in IHr, IHp.
    now rewrite IHr, <- app_assoc.
Qed.

Lemma runs_newRequests (s s' : Net.Session) (new : list Net.Request) :
  runs s new s' -> Net.newRequests s s' = new.
Proof.
  intros H. apply runs_requests in H as (H & _).
  unfold Net.newRequests. now rewrite H, drop_app_length.
Qed.

Lemma runs_cookies (s s' : Net.Session) (new : list Net.Request) :
  runs s new s' -> Net.cookieOk (Net.sessionCookie s) ->
  Net.cookieOk (Net.sessionCookie s') /\
  Forall (fun r => forall v, Net.cookie r = Some v -> Net.cookieOk v) new.
Proof.
  induction 1 as [s|s options new s' Hc _ IH]; intros Hok; [now split|].
  destruct IH as (IH1 & IH2).
  { cbn [Net.httpRequest snd Net.sessionCookie]. now apply captureCookie_ok. }
  split; [exact IH1|]. constructor; [|exact IH2].
  intros v Hv. destruct Hc as [Hc|Hc]; rewrite Hc in Hv; [discriminate|].
  now injection Hv as <-.
Qed.

Lemma initSession_runs (s : Net.Session) :
  exists options,
    Net.endpoint options = Net.SessCdTmp /\
    runs s [options] (snd (initSession s)).
Proof.
  exists {| Net.endpoint := Net.SessCdTmp; Net.cookie := None; Net.postData := None |}.
  split; [reflexivity|]. unfold Net.initSession.
  match goal with
  | |- context [httpRequest ?o s] => pose proof (runs_one o s (or_introl eq_refl)) as H
  end.
  destruct (httpRequest _ s) as [[body|error] s1]; exact H.
Qed.

Lemma login_runs (s : Net.Session) :
  exists new,
    runs s new (snd (login s)) /\
    (map Net.endpoint new = [Net.ModelJson] \/
     map Net.endpoint new = [Net.ModelJson; Net.FormsConfig]) /\
    (fst (login s) = true -> map Net.endpoint new = [Net.ModelJson; Net.FormsConfig]).
Proof.
  unfold Net.login.
  set (first := {| Net.endpoint := Net.ModelJson;
                   Net.cookie := Some (Net.sessionCookie s);
                   Net.postData := None |}).
  pose proof (runs_one first s (or_intror eq_refl)) as H1.
  destruct (httpRequest first s) as [apiResponse s1] eqn:E1. cbn [snd] in H1.
  assert (Hstop : exists new, runs s new s1 /\
            (map Net.endpoint new = [Net.ModelJson] \/
             map Net.endpoint new = [Net.ModelJson; Net.FormsConfig]) /\
            (false = true -> map Net.endpoint new = [Net.ModelJson; Net.FormsConfig])).
  { exists [first]. split; [exact H1|]. split; [now left|discriminate]. }
  destruct apiResponse as [body|]; [|exact Hstop].
  destruct (JSON_parse body) as [data|]; [|exact Hstop].
  destruct (object_coercible data && object_coercible (get data "session"));
    [|exact Hstop].
  match goal with
  | |- context [httpRequest ?o s1] =>
      set (second := o); pose proof (runs_one second s1 (or_intror eq_refl)) as H2;
      destruct (httpRequest second s1) as [response s2] eqn:E2
  end.
  cbn [snd] in H2. exists [first; second].
  destruct response; cbn [fst snd]; (split; [exact (runs_app _ _ _ _ _ H1 H2)|]);
    (split; [now right|reflexivity]).
Qed.

Lemma reAuthenticate_runs (s : Net.Session) :
  exists new,
    runs s new (snd (reAuthenticate s)) /\
    new <> [] /\
    map Net.endpoint new `prefix_of` [Net.SessCdTmp; Net.ModelJson; Net.FormsConfig] /\
    (fst (reAuthenticate s) = true ->
     map Net.endpoint new = [Net.SessCdTmp; Net.ModelJson; Net.FormsConfig]).
Proof.
  unfold Net.reAuthenticate.
  destruct (initSession_runs s) as (o & Ho & H1).
  destruct (initSession s) as [ok s1]. cbn [snd] in H1.
  destruct ok.
  - destruct (login_runs s1) as (new & H2 & Hshape & Hok).
    exists ([o] ++ new). split; [exact (runs_app _ _ _ _ _ H1 H2)|].
    split; [discriminate|]. cbn [app map]. rewrite Ho. split.
    + destruct Hshape as [->| ->]; [|reflexivity].
      now exists [Net.FormsConfig].
    + intros Hl. now rewrite (Hok Hl).
  - exists [o]. split; [exact H1|]. split; [discriminate|]. cbn [map fst].
    rewrite Ho. split; [|discriminate]. now exists [Net.ModelJson; Net.FormsConfig].
Qed.

(** The four ways a call of the body of [fetchStats] ends. *)
Lemma fetchStatsWith_cases (again : Net.Session -> jsval * Net.Session)
    (retryOnAuthFailure : bool) (s : Net.Session) :
  let first := {| Net.endpoint := Net.ModelJson;
                  Net.cookie := Some (Net.sessionCookie s);
                  Net.postData := None |} in
  let response := Net.outcome (router (Net.requests s ++ [first])) in
  let s1 := snd (httpRequest first s) in
  (fetchStatsWith again retryOnAuthFailure s = (JNull, s1) /\
   (forall body, response = inl body ->
      Net.isHtml body = true \/ exists msg, JSON_parse body = inr msg)) \/
  (exists body data,
      response = inl body /\ Net.isHtml body = false /\
      JSON_parse body = inl data /\
      fetchStatsWith again retryOnAuthFailure s = (data, s1)) \/
  (retryOnAuthFailure = true /\ looksExpired response = true /\
   fst (reAuthenticate s1) = false /\
   fetchStatsWith again retryOnAuthFailure s = (JNull, snd (reAuthenticate s1))) \/
  (retryOnAuthFailure = true /\ looksExpired response = true /\
   fst (reAuthenticate s1) = true /\
   fetchStatsWith again retryOnAuthFailure s = again (snd (reAuthenticate s1))).
Proof.
  cbn zeta. unfold Net.fetchStatsWith, Net.looksExpired.
  cbn [Net.httpRequest snd].
  set (s1 := {| Net.sessionCookie := _; Net.PASSWORD := _; Net.requests := _ |}).
  destruct (Net.outcome _) as [body|error].
  - destruct (Net.isHtml body) eqn:Ehtml.
    + destruct retryOnAuthFailure.
      * destruct (reAuthenticate s1) as [[|] s2]; cbn [fst snd orb];
          [do 3 right|do 2 right; left]; now repeat split.
      * left. split; [reflexivity|]. intros b [= <-]. now left.
    + destruct (JSON_parse body) as [data|msg] eqn:Eparse.
      * right. left. now exists body, data.
      * cbn [Net.isNetworkError Net.code Net.message orb].
        destruct (Net.includes "Unexpected token" msg); cbn [andb];
          [destruct retryOnAuthFailure|].
        -- destruct (reAuthenticate s1) as [[|] s2]; cbn [fst snd];
             [do 3 right|do 2 right; left]; now repeat split.
        -- left. split; [reflexivity|]. intros b [= <-]. right. now exists msg.
        -- left. split; [reflexivity|]. intros b [= <-]. right. now exists msg.
  - destruct (Net.isNetworkError error); cbn [negb andb].
    + left. now split.
    + destruct (Net.includes "Unexpected token" (Net.message error)); cbn [andb];
        [destruct retryOnAuthFailure|].
      * destruct (reAuthenticate s1) as [[|] s2]; cbn [fst snd];
          [do 3 right|do 2 right; left]; now repeat split.
      * left. now split.
      * left. now split.
Qed.

Lemma fetchStatsWith_false_runs (again : Net.Session -> jsval * Net.Session)
    (s : Net.Session) :
  exists options,
    Net.endpoint options = Net.ModelJson /\
    runs s [options] (snd (fetchStatsWith again false s)).
Proof.
  exists {| Net.endpoint := Net.ModelJson; Net.cookie := Some (Net.sessionCookie s);
            Net.postData := None |}.
  split; [reflexivity|].
  destruct (fetchStatsWith_cases again false s)
    as [(-> & _)|[(body & data & _ & _ & _ & ->)|[(? & _)|(? & _)]]];
    try discriminate; apply runs_one; now right.
Qed.

(** The requests of one call, in order. *)
Lemma fetchStats_runs (retryOnAuthFailure : bool) (s : Net.Session) :
  exists new,
    runs s new (snd (fetchStats retryOnAuthFailure s)) /\
    new <> [] /\
    map Net.endpoint new `prefix_of` Net.protocol /\
    (retryOnAuthFailure = false -> map Net.endpoint new = [Net.ModelJson]).
Proof.
  unfold Net.fetchStats.
  set (again := fetchStatsWith (fun s' => (JNull, s')) false).
  set (first := {| Net.endpoint := Net.ModelJson;
                   Net.cookie := Some (Net.sessionCookie s);
                   Net.postData := None |}).
  pose proof (runs_one first s (or_intror eq_refl)) as H1.
  assert (Hone : exists new, runs s new (snd (httpRequest first s)) /\ new <> [] /\
            map Net.endpoint new `prefix_of` Net.protocol /\
            (retryOnAuthFailure = false -> map Net.endpoint new = [Net.ModelJson])).
  { exists [first]. split; [exact H1|]. split; [discriminate|].
    split; [|reflexivity]. now eexists. }
  destruct (fetchStatsWith_cases again retryOnAuthFailure s)
    as [(-> & _)|[(body & data & _ & _ & _ & ->)|[(-> & _ & Hfail & ->)|(-> & _ & Hok & ->)]]];
    try exact Hone; fold first.
  - destruct (reAuthenticate_runs (snd (httpRequest first s))) as (new & H2 & _ & Hpre & _).
    exists ([first] ++ new). split; [exact (runs_app _ _ _ _ _ H1 H2)|].
    split; [discriminate|]. split; [|discriminate].
    cbn [app map]. destruct Hpre as (rest & Hrest).
    exists (rest ++ [Net.ModelJson]). unfold Net.protocol.
    change (Net.endpoint first) with Net.ModelJson.
    cbn [app]. now rewrite app_assoc, <- Hrest.
  - destruct (reAuthenticate_runs (snd (httpRequest first s))) as (new & H2 & _ & _ & Hall).
    specialize (Hall Hok).
    destruct (fetchStatsWith_false_runs (fun s' => (JNull, s'))
                (snd (reAuthenticate (snd (httpRequest first s)))))
      as (last & Hlast & H3).
    exists ([first] ++ new ++ [last]).
    split; [exact (runs_app _ _ _ _ _ H1 (runs_app _ _ _ _ _ H2 H3))|].
    split; [discriminate|]. split; [|discriminate].
    cbn [app map]. rewrite map_app, Hall. cbn [map app]. rewrite Hlast.
    reflexivity.
Qed.

(** X16.  One call of [fetchStats] makes at least one request and at most
    five, in the order stats, session, token, login, stats: it
    re-authenticates at most once and asks for the statistics again at most
    once.  With [retryOnAuthFailure = false] it makes exactly one request.
    It only adds to the requests made before, and leaves the password
    alone. *)
Theorem fetchStats_requests_are_bounded (retryOnAuthFailure : bool) (s : Net.Session) :
  let s' := snd (fetchStats retryOnAuthFailure s) in
  let new := Net.newRequests s s' in
  Net.requests s' = Net.requests s ++ new /\
  map Net.endpoint new `prefix_of` Net.protocol /\
  (1 <= length new <= 5)%nat /\
  (retryOnAuthFailure = false -> length new = 1%nat) /\
  Net.PASSWORD s' = Net.PASSWORD s.
Proof.
  cbn zeta.
  destruct (fetchStats_runs retryOnAuthFailure s) as (new & Hruns & Hne & Hpre & Hone).
  rewrite (runs_newRequests _ _ _ Hruns).
  destruct (runs_requests _ _ _ Hruns) as (Hreq & Hpw).
  split; [exact Hreq|]. split; [exact Hpre|]. split; [|split; [|exact Hpw]].
  - apply prefix_length in Hpre. rewrite length_map in Hpre. cbn in Hpre.
    destruct new; [contradiction|cbn [length] in *; lia].
  - intros Hr. apply Hone in Hr. apply (f_equal length) in Hr.
    now rewrite length_map in Hr.
Qed.

(** X17.  Every request of [fetchStats] that carries a [Cookie] header
    carries the session cookie of the moment: started with no cookie yet or
    with a bare [sessionId=...] pair, it sends nothing else, and it ends
    with such a cookie, whatever the router puts in its [Set-Cookie]
    headers. *)
Theorem fetchStats_sends_only_session_cookies (retryOnAuthFailure : bool)
    (s : Net.Session) :
  Net.cookieOk (Net.sessionCookie s) ->
  let s' := snd (fetchStats retryOnAuthFailure s) in
  Net.cookieOk (Net.sessionCookie s') /\
  Forall (fun r => forall v, Net.cookie r = Some v -> Net.cookieOk v)
         (Net.newRequests s s').
Proof.
  intros Hok. cbn zeta.
  destruct (fetchStats_runs retryOnAuthFailure s) as (new & Hruns & _).
  rewrite (runs_newRequests _ _ _ Hruns). now apply (runs_cookies s _ new).
Qed.

(** X18.  A result of [fetchStats] other than [null] is the parsed body of
    the reply to the last request made, that request asks for the
    statistics, and the body is not an HTML page. *)
Theorem fetchStats_returns_the_last_reply (retryOnAuthFailure : bool)
    (s : Net.Session) :
  fst (fetchStats retryOnAuthFailure s) <> JNull ->
  let s' := snd (fetchStats retryOnAuthFailure s) in
  exists body,
    Net.outcome (router (Net.requests s')) = inl body /\
    Net.isHtml body = false /\
    JSON_parse body = inl (fst (fetchStats retryOnAuthFailure s)) /\
    (Net.endpoint <$> last (Net.requests s')) = Some Net.ModelJson.
Proof.
  cbn zeta. unfold Net.fetchStats.
  set (again := fetchStatsWith (fun s' => (JNull, s')) false).
  assert (Hinner : forall again0 s0,
            fst (fetchStatsWith again0 false s0) <> JNull ->
            exists body,
              Net.outcome (router (Net.requests (snd (fetchStatsWith again0 false s0))))
              = inl body /\
              Net.isHtml body = false /\
              JSON_parse body = inl (fst (fetchStatsWith again0 false s0)) /\
              (Net.endpoint <$> last (Net.requests (snd (fetchStatsWith again0 false s0))))
              = Some Net.ModelJson).
  { intros again0 s0 Hres.
    destruct (fetchStatsWith_cases again0 false s0)
      as [(E & _)|[(body & data & Hresp & Hhtml & Hparse & E)|[(? & _)|(? & _)]]];
      try discriminate; rewrite E in Hres |- *; cbn [fst snd] in *; [contradiction|].
    exists body. cbn [Net.httpRequest snd Net.requests]. rewrite last_snoc.
    now repeat split. }
  intros Hres.
  destruct (fetchStatsWith_cases again retryOnAuthFailure s)
    as [(E & _)|[(body & data & Hresp & Hhtml & Hparse & E)|[(_ & _ & _ & E)|(_ & _ & _ & E)]]];
    rewrite E in Hres |- *; cbn [fst snd] in *; try contradiction.
  - exists body. cbn [Net.httpRequest snd Net.requests]. rewrite last_snoc.
    now repeat split.
  - now apply Hinner.
Qed.

(** X19.  [fetchStats] makes a second request only after a reply that looks
    like an expired session (an HTML page, or an error whose message
    contains [Unexpected token]) and only when [retryOnAuthFailure] is set.
    After one of the network errors EHOSTUNREACH, ENETUNREACH and
    ECONNRESET, after any other rejection and after a body that parses, the
    first request is the only one. *)
Theorem fetchStats_retries_only_expired_sessions (retryOnAuthFailure : bool)
    (s : Net.Session) :
  (1 < length (Net.newRequests s (snd (fetchStats retryOnAuthFailure s))))%nat ->
  let first := {| Net.endpoint := Net.ModelJson;
                  Net.cookie := Some (Net.sessionCookie s);
                  Net.postData := None |} in
  retryOnAuthFailure = true /\
  looksExpired (Net.outcome (router (Net.requests s ++ [first]))) = true /\
  (Net.endpoint <$> Net.newRequests s (snd (fetchStats retryOnAuthFailure s)) !! 1%nat)
  = Some Net.SessCdTmp.
Proof.
  cbn zeta. unfold Net.fetchStats.
  set (again := fetchStatsWith (fun s' => (JNull, s')) false).
  set (first := {| Net.endpoint := Net.ModelJson;
                   Net.cookie := Some (Net.sessionCookie s);
                   Net.postData := None |}).
  pose proof (runs_one first s (or_intror eq_refl)) as H1.
  destruct (reAuthenticate_runs (snd (httpRequest first s))) as (new & H2 & Hne & Hpre & _).
  destruct new as [|o new]; [contradiction|].
  assert (Ho : Net.endpoint o = Net.SessCdTmp).
  { destruct Hpre as (rest & Hrest). cbn [map app] in Hrest. now injection Hrest. }
  destruct (fetchStatsWith_cases again retryOnAuthFailure s)
    as [(E & _)|[(body & data & _ & _ & _ & E)|[(Hr & Hexp & _ & E)|(Hr & Hexp & _ & E)]]];
    rewrite E; fold first; cbn [snd].
  - rewrite (runs_newRequests _ _ _ H1). cbn [length]. lia.
  - rewrite (runs_newRequests _ _ _ H1). cbn [length]. lia.
  - intros _. rewrite (runs_newRequests _ _ _ (runs_app _ _ _ _ _ H1 H2)).
    cbn. now rewrite Ho.
  - intros _.
    destruct (fetchStatsWith_false_runs (fun s' => (JNull, s'))
                (snd (reAuthenticate (snd (httpRequest first s)))))
      as (lst & _ & H3).
    fold again in H3.
    rewrite (runs_newRequests _ _ _ (runs_app _ _ _ _ _ H1 (runs_app _ _ _ _ _ H2 H3))).
    cbn. now rewrite Ho.
Qed.

End RouterSession.

(** Witness of X17: a session that starts without a cookie. *)
Lemma fetchStats_sends_only_session_cookies_witness :
  let s' := snd (Net.fetchStats Net.parseExample Net.expiredRouter true Net.newSession) in
  Net.cookieOk (Net.sessionCookie s') /\
  Forall (fun r => forall v, Net.cookie r = Some v -> Net.cookieOk v)
         (Net.newRequests Net.newSession s').
Proof.
  apply (fetchStats_sends_only_session_cookies Net.parseExample Net.expiredRouter
           true Net.newSession).
  left. reflexivity.
Defined.

(** Witness of X18: the expired session is renewed and the second request
    for the statistics gives the snapshot. *)
Lemma fetchStats_returns_the_last_reply_witness :
  let s' := snd (Net.fetchStats Net.parseExample Net.expiredRouter true Net.newSession) in
  exists body,
    Net.outcome (Net.expiredRouter (Net.requests s')) = inl body /\
    Net.isHtml body = false /\
    Net.parseExample body
    = inl (fst (Net.fetchStats Net.parseExample Net.expiredRouter true Net.newSession)) /\
    (Net.endpoint <$> last (Net.requests s')) = Some Net.ModelJson.
Proof.
  apply (fetchStats_returns_the_last_reply Net.parseExample Net.expiredRouter
           true Net.newSession).
  vm_compute. discriminate.
Defined.

(** Witness of X19: the five requests of the renewed session. *)
Lemma fetchStats_retries_only_expired_sessions_witness :
  let first := {| Net.endpoint := Net.ModelJson;
                  Net.cookie := Some (Net.sessionCookie Net.newSession);
                  Net.postData := None |} in
  true = true /\
  Net.looksExpired Net.parseExample
    (Net.outcome (Net.expiredRouter (Net.requests Net.newSession ++ [first]))) = true /\
  (Net.endpoint <$>
   Net.newRequests Net.newSession
     (snd (Net.fetchStats Net.parseExample Net.expiredRouter true Net.newSession)) !! 1%nat)
  = Some Net.SessCdTmp.
Proof.
  apply (fetchStats_retries_only_expired_sessions Net.parseExample Net.expiredRouter
           true Net.newSession).
  vm_compute. lia.
Defined.
(** ** The bandwidth histogram *)

Section HistogramShape.

Import Histogram.

Lemma maxOf_positive (data : list Q) : (1 <= maxOf data)%Q.
Proof.
  induction data as [|v data IH]; cbn [maxOf fold_right]; [apply Qle_refl|].
  eapply Qle_trans; [exact IH|apply Q.le_max_r].
Qed.

Lemma maxOf_upper (data : list Q) (v : Q) :
  (1 <= v)%Q -> Forall (fun w => (w <= v)%Q) data -> (maxOf data <= v)%Q.
Proof.
  intros H1 Hall. induction Hall as [|w data Hw _ IH]; cbn [maxOf fold_right];
    [exact H1|now apply Q.max_lub].
Qed.

Lemma gt_spec (a b : Q) : gt a b = true <-> (b < a)%Q.
Proof.
  unfold gt. rewrite negb_true_iff, <- not_true_iff_false, Qle_bool_iff.
  split; [apply Qnot_le_lt|apply Qlt_not_le].
Qed.

Lemma gt_false (a b : Q) : gt a b = false <-> (a <= b)%Q.
Proof. unfold gt. now rewrite negb_false_iff, Qle_bool_iff. Qed.

Lemma inject_Z_succ (row row' : Z) :
  (row' < row)%Z -> (inject_Z row' + 1 <= inject_Z row)%Q.
Proof.
  intros H. change 1%Q with (inject_Z 1). rewrite <- inject_Z_plus.
  rewrite <- Zle_Qle. lia.
Qed.

(** A cell that is not blank has its bar above the bottom of its row. *)
Lemma cell_not_blank (max : Q) (row : Z) (value : Q) :
  cell max row value <> Blank -> (inject_Z row < value / max * 5)%Q.
Proof.
  unfold cell. cbn zeta. intros H.
  destruct (gt _ (inject_Z row + (3 # 4))) eqn:E1;
    [apply gt_spec in E1; lra|].
  destruct (gt _ (inject_Z row + (1 # 4))) eqn:E2;
    [apply gt_spec in E2; lra|].
  destruct (gt _ (inject_Z row)) eqn:E3; [now apply gt_spec in E3|].
  contradiction.
Qed.

Lemma cell_full (max : Q) (row : Z) (value : Q) :
  (inject_Z row + (3 # 4) < value / max * 5)%Q -> cell max row value = Full.
Proof. intros H. unfold cell. cbn zeta. apply gt_spec in H. now rewrite H. Qed.

Lemma cell_monotone (max : Q) (row : Z) (v w : Q) :
  (0 < max)%Q -> (v <= w)%Q ->
  (height (cell max row v) <= height (cell max row w))%nat.
Proof.
  intros Hmax Hvw.
  assert (H : (v / max * 5 <= w / max * 5)%Q).
  { apply Qmult_le_compat_r; [|discriminate].
    apply Qmult_le_compat_r; [exact Hvw|].
    apply Qlt_le_weak, Qinv_lt_0_compat, Hmax. }
  unfold cell. cbn zeta.
  repeat match goal with
         | |- context [gt ?a ?b] =>
             let E := fresh "E" in
             destruct (gt a b) eqn:E;
             [apply gt_spec in E|apply gt_false in E]
         end; cbn [height]; try lia; lra.
Qed.

Lemma lookup_rows (line : nat) (row : Z) :
  rows !! line = Some row <-> (line < 5)%nat /\ row = 4 - Z.of_nat line.
Proof.
  unfold rows. do 5 (destruct line as [|line]; [cbn; split; [intros [= <-]|intros (_ & ->)];
    (split || idtac); (lia || reflexivity)|]).
  cbn. split; [discriminate|lia].
Qed.

Lemma cellAt_spec (data : list Q) (line column : nat) (c : Cell) :
  cellAt data line column = Some c <->
  (line < 5)%nat /\
  exists value, data !! column = Some value /\
                c = cell (maxOf data) (4 - Z.of_nat line) value.
Proof.
  unfold cellAt, lines. rewrite list_lookup_fmap.
  destruct (rows !! line) as [row|] eqn:Erow; cbn [fmap option_fmap option_map].
  - apply lookup_rows in Erow as (Hline & ->). rewrite list_lookup_fmap.
    destruct (data !! column) as [value|]; cbn [fmap option_fmap option_map].
    + split.
      * intros [= <-]. split; [exact Hline|]. now exists value.
      * intros (_ & v & [= <-] & ->). reflexivity.
    + split; [discriminate|]. now intros (_ & v & Hv & _).
  - split; [discriminate|]. intros (Hline & _).
    assert (H : rows !! line = Some (4 - Z.of_nat line)) by now apply lookup_rows.
    congruence.
Qed.

(** X20.  The histogram has five lines of one cell for each sample, and
    every column is a solid bar standing on the bottom line: under a cell
    that is not blank there are only full blocks.  The column of a sample
    that is zero or negative is blank, the column of the largest sample is
    full from bottom to top once that sample is at least 1, and a larger
    sample never gets a lower cell than a smaller one on the same line. *)
Theorem histogram_columns_are_solid_bars (data : list Q) :
  length (lines data) = 5%nat /\
  Forall (fun cells => length cells = length data) (lines data) /\
  forall (column : nat) (value : Q), data !! column = Some value ->
    (forall line, (line < 5)%nat -> exists c, cellAt data line column = Some c) /\
    (forall line c, cellAt data line column = Some c ->
       (c <> Blank ->
        forall below, (line < below < 5)%nat -> cellAt data below column = Some Full) /\
       ((value <= 0)%Q -> c = Blank) /\
       ((1 <= value)%Q -> Forall (fun w => (w <= value)%Q) data -> c = Full) /\
       (forall column' value' c',
          data !! column' = Some value' -> (value <= value')%Q ->
          cellAt data line column' = Some c' -> (height c <= height c')%nat)).
Proof.
  pose proof (maxOf_positive data) as Hmax.
  split; [reflexivity|]. split.
  { unfold lines. apply Forall_fmap, Forall_forall. intros row _. cbn.
    now rewrite length_map. }
  intros column value Hvalue. split.
  { intros line Hline. eexists. apply cellAt_spec. split; [exact Hline|].
    now exists value. }
  intros line c Hc. apply cellAt_spec in Hc as (Hline & v & Hv & ->).
  assert (v = value) as -> by congruence.
  split; [|split; [|split]].
  - intros Hnb below Hbelow. apply cellAt_spec. split; [lia|].
    exists value. split; [exact Hvalue|]. symmetry. apply cell_full.
    apply cell_not_blank in Hnb.
    pose proof (inject_Z_succ (4 - Z.of_nat line) (4 - Z.of_nat below)
                  ltac:(lia)) as Hrow.
    lra.
  - intros Hle. unfold cell. cbn zeta.
    assert (H : (value / maxOf data * 5 <= 0)%Q).
    { assert (H0 : (value / maxOf data <= 0)%Q).
      { apply Qle_shift_div_r; [lra|lra]. }
      lra. }
    assert (Hrow : (0 <= inject_Z (4 - Z.of_nat line))%Q).
    { change 0%Q with (inject_Z 0). rewrite <- Zle_Qle. lia. }
    repeat match goal with
           | |- context [gt ?a ?b] =>
               let E := fresh "E" in
               destruct (gt a b) eqn:E; [apply gt_spec in E; lra|]
           end.
    reflexivity.
  - intros H1 Hall. apply cell_full.
    assert (H : (1 <= value / maxOf data)%Q).
    { apply Qle_shift_div_l; [lra|]. rewrite Qmult_1_l. now apply maxOf_upper. }
    assert (Hrow : (inject_Z (4 - Z.of_nat line) <= 4)%Q).
    { change 4%Q with (inject_Z 4). rewrite <- Zle_Qle. lia. }
    lra.
  - intros column' value' c' Hv' Hle Hc'.
    apply cellAt_spec in Hc' as (_ & w & Hw & ->).
    assert (w = value') as -> by congruence.
    apply cell_monotone; [lra|exact Hle].
Qed.

End HistogramShape.

(** ** The masked password prompt *)

Section MaskedPrompt.

Import Prompt.

Lemma length_append (s t : string) :
  String.length (String.append s t) = (String.length s + String.length t)%nat.
Proof. induction s as [|c s IH]; simpl; [reflexivity|now rewrite IH]. Qed.

Lemma length_substring (n : nat) (s : string) :
  (n <= String.length s)%nat -> String.length (String.substring 0 n s) = n.
Proof.
  revert n. induction s as [|c s IH]; intros [|n] Hn; simpl in *; try reflexivity;
    [lia|]. rewrite IH; [reflexivity|lia].
Qed.

Lemma printable_append (s t : string) :
  printable (String.append s t) = printable s && printable t.
Proof.
  induction s as [|c s IH]; simpl; [reflexivity|]. now rewrite IH, andb_assoc.
Qed.

Lemma printable_substring (n : nat) (s : string) :
  printable s = true -> printable (String.substring 0 n s) = true.
Proof.
  revert n. induction s as [|c s IH]; intros [|n] Hs; simpl in *; try reflexivity.
  apply andb_true_iff in Hs as (Hc & Hs). now rewrite Hc, IH.
Qed.

Lemma printable_key (c : ascii) :
  String.leb " " (String c "") && String.leb (String c "") "~" = true ->
  is_printable c = true.
Proof.
  destruct c as [b0 b1 b2 b3 b4 b5 b6 b7].
  destruct b0, b1, b2, b3, b4, b5, b6, b7; vm_compute; intros H;
    first [reflexivity|discriminate H].
Qed.

Lemma leb_space_length (char : string) :
  String.leb " " char = true -> (1 <= String.length char)%nat.
Proof. destruct char; [discriminate|cbn; lia]. Qed.

Lemma stars_snoc (written : list string) (w : string) :
  stars (written ++ [w])
  = stars written + (if decide (w = "*") then 1 else 0)
    - (if decide (w = erase) then 1 else 0).
Proof.
  unfold stars. rewrite !filter_app, !length_app.
  rewrite !filter_cons, !filter_nil.
  destruct (decide (w = "*")), (decide (w = erase)); cbn [length]; lia.
Qed.

Ltac decide_written :=
  repeat match goal with
         | |- context [decide (?a = ?b)] =>
             let Hd := fresh "Hd" in
             destruct (decide (a = b)) as [Hd|Hd];
             [try discriminate Hd|try (exfalso; apply Hd; reflexivity)]
         end.

Lemma deliver_echo (st : State) (char : string) :
  Forall (fun w => w ∈ ["*"; erase; key 10]) (written st) ->
  stars (written st) <= Z.of_nat (String.length (pass st)) ->
  Forall (fun w => w ∈ ["*"; erase; key 10]) (written (deliver st char)) /\
  stars (written (deliver st char)) <= Z.of_nat (String.length (pass (deliver st char))).
Proof.
  intros Hall Hle. unfold deliver. destruct (status st); [|now split..].
  unfold onData.
  assert (Hin : forall w, w ∈ ["*"; erase; key 10] ->
                  Forall (fun w => w ∈ ["*"; erase; key 10]) (written st ++ [w])).
  { intros w Hw. apply Forall_app. split; [exact Hall|now constructor]. }
  destruct (_ || _ || _).
  { cbn [written pass]. split; [apply Hin; set_solver|].
    rewrite stars_snoc. decide_written; lia. }
  destruct (String.eqb char (key 3)).
  { cbn [written pass]. split; [apply Hin; set_solver|].
    rewrite stars_snoc. decide_written; lia. }
  destruct (_ || _).
  { destruct (Nat.ltb_spec 0 (String.length (pass st))) as [Hpos|_]; [|now split].
    cbn [written pass]. split; [apply Hin; set_solver|].
    rewrite stars_snoc. unfold slice_last. rewrite length_substring by lia.
    decide_written; lia. }
  destruct (String.leb " " char) eqn:Elow; cbn [andb]; [|now split].
  destruct (String.leb char "~"); [|now split].
  cbn [written pass]. split; [apply Hin; set_solver|].
  rewrite stars_snoc, length_append. apply leb_space_length in Elow.
  decide_written; lia.
Qed.

Lemma deliver_key (st : State) (char : string) :
  String.length char = 1%nat ->
  stars (written st) = Z.of_nat (String.length (pass st)) ->
  printable (pass st) = true ->
  stars (written (deliver st char)) = Z.of_nat (String.length (pass (deliver st char))) /\
  printable (pass (deliver st char)) = true.
Proof.
  intros Hone Heq Hpr. unfold deliver. destruct (status st); [|now split..].
  unfold onData.
  destruct (_ || _ || _).
  { cbn [written pass]. rewrite stars_snoc. split; [decide_written; lia|exact Hpr]. }
  destruct (String.eqb char (key 3)).
  { cbn [written pass]. rewrite stars_snoc. split; [decide_written; lia|exact Hpr]. }
  destruct (_ || _).
  { destruct (Nat.ltb_spec 0 (String.length (pass st))) as [Hpos|_]; [|now split].
    cbn [written pass]. rewrite stars_snoc. unfold slice_last.
    rewrite length_substring by lia.
    split; [decide_written; lia|now apply printable_substring]. }
  destruct (String.leb " " char && String.leb char "~") eqn:Ekey; [|now split].
  cbn [written pass]. rewrite stars_snoc, length_append, printable_append, Hpr, Hone.
  destruct char as [|c [|? ?]]; try discriminate.
  apply printable_key in Ekey. cbn [printable String.length]. rewrite Ekey.
  split; [decide_written; lia|reflexivity].
Qed.

Lemma foldl_deliver_echo (chunks : list string) (st : State) :
  Forall (fun w => w ∈ ["*"; erase; key 10]) (written st) ->
  stars (written st) <= Z.of_nat (String.length (pass st)) ->
  Forall (fun w => w ∈ ["*"; erase; key 10]) (written (foldl deliver st chunks)) /\
  stars (written (foldl deliver st chunks))
  <= Z.of_nat (String.length (pass (foldl deliver st chunks))).
Proof.
  revert st. induction chunks as [|char chunks IH]; intros st Hall Hle; [now split|].
  cbn [foldl]. destruct (deliver_echo st char Hall Hle) as (Hall' & Hle').
  now apply IH.
Qed.

Lemma foldl_deliver_keys (chunks : list string) (st : State) :
  Forall (fun char => String.length char = 1%nat) chunks ->
  stars (written st) = Z.of_nat (String.length (pass st)) ->
  printable (pass st) = true ->
  stars (written (foldl deliver st chunks))
  = Z.of_nat (String.length (pass (foldl deliver st chunks))) /\
  printable (pass (foldl deliver st chunks)) = true.
Proof.
  intros Hkeys. revert st.
  induction Hkeys as [|char chunks Hone _ IH]; intros st Heq Hpr; [now split|].
  cbn [foldl]. destruct (deliver_key st char Hone Heq Hpr) as (Heq' & Hpr').
  now apply IH.
Qed.

(** X21.  The password prompt writes nothing but stars, the erasing
    sequence and the final line feed, so what is typed never reaches the
    terminal; it never shows more stars than the password has characters.
    When the keys arrive one at a time, the stars on the terminal are as
    many as the characters of the password, and the password consists of
    printable ASCII characters only. *)
Theorem masked_prompt_echo (chunks : list string) :
  let st := readPasswordMasked chunks in
  Forall (fun w => w ∈ ["*"; erase; key 10]) (written st) /\
  stars (written st) <= Z.of_nat (String.length (pass st)) /\
  (Forall (fun char => String.length char = 1%nat) chunks ->
   stars (written st) = Z.of_nat (String.length (pass st)) /\
   printable (pass st) = true).
Proof.
  cbn zeta. unfold readPasswordMasked.
  set (st0 := {| pass := ""; written := []; status := Reading |}).
  destruct (foldl_deliver_echo chunks st0) as (Hall & Hle);
    [constructor|reflexivity|].
  split; [exact Hall|]. split; [exact Hle|].
  intros Hkeys. now apply foldl_deliver_keys.
Qed.

End MaskedPrompt.
